(** * openfpm_devices: the device context [gpu::ofp_context_t] and the
      emulation variables of [cudify_vars.cpp]

    The three build variants of [src/util/ofp_context.hpp] are embedded as
    three modules ([CudaOnCpu], [CudaGpu], [NoCuda]) over one machine state:
    the state of the CUDA runtime, the chronological log of the runtime
    calls that were issued, and what was written to standard output.
    Member functions are computations in a small state/exception monad. *)

From Stdlib Require Import ZArith List String Floats DecimalString DecimalNat Lia.
From stdpp Require Import base gmap.
Import ListNotations.

Local Open Scope string_scope.
Local Open Scope list_scope.
Local Open Scope Z_scope.

(** ** Values shared by the variants *)

(** [enum gpu_context_opt], declared identically in the three variants. *)
Inductive gpu_context_opt := no_print_props | print_props | dummy.

Definition gpu_context_opt_eqb (a b : gpu_context_opt) : bool :=
  match a, b with
  | no_print_props, no_print_props | print_props, print_props | dummy, dummy => true
  | _, _ => false
  end.

(** [cudaError_t]: the runtime's status code; [cudaSuccess] is 0. *)
Definition cudaError_t := Z.
Definition cudaSuccess : cudaError_t := 0.

(** Modelled from the spec: [cuda_exception_t] is declared in
    util/gpu_context.hpp, which is not part of the sources at hand; the
    exception "wraps the backend's native error code". *)
Record cuda_exception_t := { result : cudaError_t }.

(** Modelled from the spec: [memory_space_t] is declared in
    util/gpu_context.hpp; the "device-space enumeration distinguishing
    device-resident vs host-pinned allocation targets". *)
Inductive memory_space_t := memory_space_device | memory_space_host.

Definition memory_space_eqb (a b : memory_space_t) : bool :=
  match a, b with
  | memory_space_device, memory_space_device
  | memory_space_host, memory_space_host => true
  | _, _ => false
  end.

(** The integral value an enumerator converts to when handed to the
    [int space] parameter of the CPU variant. *)
Definition memory_space_to_int (s : memory_space_t) : Z :=
  match s with memory_space_device => 0 | memory_space_host => 1 end.

(** [void*]: an address, [nullptr] is address 0.  [size_t] is [N]. *)
Definition pointer := N.
Definition nullptr : pointer := 0%N.

(** [cudaStream_t] and [cudaEvent_t] are opaque handles of the runtime;
    the default stream is the null handle. *)
Definition cudaStream_t := N.
Definition cudaEvent_t := N.

(** [struct cudaFuncAttributes], of which only [ptxVersion] is read. *)
Record cudaFuncAttributes := { ptxVersion : Z }.

(** [openfpm::vector<aggregate<unsigned char>>] and its [vector_gpu]
    counterpart: a growable sequence of bytes, empty when default
    constructed. *)
Definition byte_vector := list Byte.byte.

Definition INT_MIN : Z := - 2 ^ 31.

(** A member or local that was declared without initializer and has not been
    assigned holds an indeterminate value: [None].  The code's own
    arithmetic and branching on such a value is undefined; handing it to a
    function outside this file (the runtime, the caller) passes it on as it
    is. *)
Definition indet (A : Type) := option A.

(** ** The machine and the monad of member functions *)

(** A call of the CUDA runtime, with the arguments passed by value. *)
Inductive call :=
| FuncGetAttributes
| GetDeviceCount
| SetDevice (device : Z)
| GetDevice
| GetDeviceProperties (ord : indet Z)
| EventCreate
| EventDestroy (e : indet cudaEvent_t)
| Malloc (size : N)
| MallocHost (size : N)
| Free (p : pointer)
| FreeHost (p : pointer)
| StreamSynchronize (s : cudaStream_t)
| DeviceSynchronize
| EventRecord (e : indet cudaEvent_t) (s : cudaStream_t)
| EventSynchronize (e : indet cudaEvent_t)
| EventElapsedTime (e0 e1 : indet cudaEvent_t).

Definition is_create_call (c : call) : bool :=
  match c with EventCreate | GetDeviceProperties _ => true | _ => false end.

Definition is_set_device_call (c : call) : bool :=
  match c with SetDevice _ => true | _ => false end.

Section Machine.

(** The state of the CUDA runtime, about which nothing is assumed. *)
Context {W : Type}.

Record machine := {
  world : W;                  (* state of the runtime *)
  calls : list call;          (* runtime calls issued so far, oldest first *)
  stdout : list string        (* what was written to standard output, one
                                 entry per inserted operand, oldest first *)
}.

(** How a member function ends: it returns, it throws
    [cuda_exception_t], or it computes with an indeterminate value. *)
Inductive outcome (A : Type) :=
| Returns (a : A)
| Throws (e : cuda_exception_t)
| Undefined.
Global Arguments Returns {A} a.
Global Arguments Throws {A} e.
Global Arguments Undefined {A}.

Definition M (A : Type) := machine -> outcome A * machine.

Definition ret {A} (a : A) : M A := fun m => (Returns a, m).

Definition bind {A B} (c : M A) (k : A -> M B) : M B :=
  fun m =>
    match c m with
    | (Returns a, m') => k a m'
    | (Throws e, m') => (Throws e, m')
    | (Undefined, m') => (Undefined, m')
    end.

Definition throw {A} (e : cuda_exception_t) : M A := fun m => (Throws e, m).

Definition undefined {A} : M A := fun m => (Undefined, m).

(** Reading a possibly indeterminate value in the code's own arithmetic. *)
Definition read {A} (v : indet A) : M A :=
  match v with Some a => ret a | None => undefined end.

(** [std::cout << s] / [printf]. *)
Definition print (s : string) : M unit :=
  fun m => (Returns tt,
            {| world := world m; calls := calls m; stdout := stdout m ++ [s] |}).

(** A runtime call: logged, then answered by the runtime. *)
Definition native {A} (c : call) (f : W -> A * W) : M A :=
  fun m =>
    let '(a, w) := f (world m) in
    (Returns a, {| world := w; calls := calls m ++ [c]; stdout := stdout m |}).

Definition returns_normally {A} (r : outcome A * machine) : bool :=
  match fst r with Returns _ => true | _ => false end.

(** The runtime calls and the output a computation added to a machine. *)
Definition new_calls (m m' : machine) : list call :=
  skipn (length (calls m)) (calls m').

Definition new_output (m m' : machine) : list string :=
  skipn (length (stdout m)) (stdout m').

Definition prints_something (m m' : machine) : Prop :=
  new_output m m' <> [].

(** The machine [m] after the runtime moved to [w], [cs] was logged and
    [out] was printed. *)
Definition after (m : machine) (w : W) (cs : list call) (out : list string)
  : machine :=
  {| world := w; calls := calls m ++ cs; stdout := stdout m ++ out |}.

End Machine.

Arguments machine W : clear implicits.
Arguments M W A : clear implicits.

Declare Scope ctx_scope.
Delimit Scope ctx_scope with ctx.
Notation "'do' x <- c ; k" := (bind c (fun x => k))
  (at level 10, x pattern, c at level 100, k at level 200) : ctx_scope.
Local Open Scope ctx_scope.

(** ** The CUDA runtime

    Each entry point maps its by-value arguments and the runtime state to a
    status, what it wrote through its out-parameter ([None]: nothing was
    written) and the next runtime state. *)
Record cuda_runtime (W cudaDeviceProp : Type) := {
  cudaFuncGetAttributes : W -> cudaError_t * cudaFuncAttributes * W;
  cudaGetDeviceCount : W -> cudaError_t * option Z * W;
  cudaSetDevice : Z -> W -> cudaError_t * W;
  cudaGetDevice : W -> cudaError_t * option Z * W;
  cudaGetDeviceProperties : indet Z -> W -> cudaError_t * option cudaDeviceProp * W;
  cudaEventCreate : W -> cudaError_t * option cudaEvent_t * W;
  cudaEventDestroy : indet cudaEvent_t -> W -> cudaError_t * W;
  cudaMalloc : N -> W -> cudaError_t * option pointer * W;
  cudaMallocHost : N -> W -> cudaError_t * option pointer * W;
  cudaFree : pointer -> W -> cudaError_t * W;
  cudaFreeHost : pointer -> W -> cudaError_t * W;
  cudaStreamSynchronize : cudaStream_t -> W -> cudaError_t * W;
  cudaDeviceSynchronize : W -> cudaError_t * W;
  cudaEventRecord : indet cudaEvent_t -> cudaStream_t -> W -> cudaError_t * W;
  cudaEventSynchronize : indet cudaEvent_t -> W -> cudaError_t * W;
  (* the measurement is a binary32 [float]; it is held here as the binary64
     value it is promoted to, exactly, by [ms / 1.0e3] *)
  cudaEventElapsedTime :
    indet cudaEvent_t -> indet cudaEvent_t -> W -> cudaError_t * option float * W
}.
Arguments cudaFuncGetAttributes {W cudaDeviceProp} _.
Arguments cudaGetDeviceCount {W cudaDeviceProp} _.
Arguments cudaSetDevice {W cudaDeviceProp} _.
Arguments cudaGetDevice {W cudaDeviceProp} _.
Arguments cudaGetDeviceProperties {W cudaDeviceProp} _.
Arguments cudaEventCreate {W cudaDeviceProp} _.
Arguments cudaEventDestroy {W cudaDeviceProp} _.
Arguments cudaMalloc {W cudaDeviceProp} _.
Arguments cudaMallocHost {W cudaDeviceProp} _.
Arguments cudaFree {W cudaDeviceProp} _.
Arguments cudaFreeHost {W cudaDeviceProp} _.
Arguments cudaStreamSynchronize {W cudaDeviceProp} _.
Arguments cudaDeviceSynchronize {W cudaDeviceProp} _.
Arguments cudaEventRecord {W cudaDeviceProp} _.
Arguments cudaEventSynchronize {W cudaDeviceProp} _.
Arguments cudaEventElapsedTime {W cudaDeviceProp} _.

(** The line terminator written by [std::endl] and by the format ["%s\n"]. *)
Definition endl : string := String (Ascii.ascii_of_nat 10) EmptyString.

(** What an out-parameter holds after a call: the value the callee wrote,
    else what it held before. *)
Definition written {A} (old : indet A) (w : option A) : indet A :=
  match w with Some a => Some a | None => old end.

(** A reference to a member of an object of type [S]: reading through it and
    assigning through it. *)
Record reference (S A : Type) := {
  deref : S -> A;
  assign : A -> S -> S
}.
Arguments deref {S A} _ _.
Arguments assign {S A} _ _ _.

(** ** The real-accelerator variant ([#ifdef CUDA_GPU], lines 111-286) *)
Module CudaGpu.
Section Variant.

Context {W cudaDeviceProp : Type}.
(** The CUDA runtime the context talks to. *)
Variable rt : cuda_runtime W cudaDeviceProp.
(** Whether the translation unit is compiled with [__NVCC__] defined. *)
Variable NVCC : bool.
(** [device_prop_string] of util/gpu_context.hpp, which receives [_props]
    by value. *)
Variable device_prop_string : indet cudaDeviceProp -> string.

Record ofp_context_t := {
  _props : indet cudaDeviceProp;
  _ptx_version : indet Z;
  _stream : cudaStream_t;
  _timer : indet cudaEvent_t * indet cudaEvent_t;
  _event : indet cudaEvent_t;
  tmem : byte_vector;
  tmem2 : byte_vector;
  tmem3 : byte_vector
}.

Definition set_props v (c : ofp_context_t) :=
  {| _props := v; _ptx_version := _ptx_version c; _stream := _stream c;
     _timer := _timer c; _event := _event c;
     tmem := tmem c; tmem2 := tmem2 c; tmem3 := tmem3 c |}.
Definition set_ptx_version v (c : ofp_context_t) :=
  {| _props := _props c; _ptx_version := v; _stream := _stream c;
     _timer := _timer c; _event := _event c;
     tmem := tmem c; tmem2 := tmem2 c; tmem3 := tmem3 c |}.
Definition set_timer v (c : ofp_context_t) :=
  {| _props := _props c; _ptx_version := _ptx_version c; _stream := _stream c;
     _timer := v; _event := _event c;
     tmem := tmem c; tmem2 := tmem2 c; tmem3 := tmem3 c |}.
Definition set_event v (c : ofp_context_t) :=
  {| _props := _props c; _ptx_version := _ptx_version c; _stream := _stream c;
     _timer := _timer c; _event := v;
     tmem := tmem c; tmem2 := tmem2 c; tmem3 := tmem3 c |}.
Definition set_tmem v (c : ofp_context_t) :=
  {| _props := _props c; _ptx_version := _ptx_version c; _stream := _stream c;
     _timer := _timer c; _event := _event c;
     tmem := v; tmem2 := tmem2 c; tmem3 := tmem3 c |}.
Definition set_tmem2 v (c : ofp_context_t) :=
  {| _props := _props c; _ptx_version := _ptx_version c; _stream := _stream c;
     _timer := _timer c; _event := _event c;
     tmem := tmem c; tmem2 := v; tmem3 := tmem3 c |}.
Definition set_tmem3 v (c : ofp_context_t) :=
  {| _props := _props c; _ptx_version := _ptx_version c; _stream := _stream c;
     _timer := _timer c; _event := _event c;
     tmem := tmem c; tmem2 := tmem2 c; tmem3 := v |}.

(** The object before the constructor body runs: [_stream(stream_)] from
    the initializer list, the three vectors default constructed, the
    members of built-in type left indeterminate. *)
Definition uninitialized (stream_ : cudaStream_t) : ofp_context_t :=
  {| _props := None; _ptx_version := None; _stream := stream_;
     _timer := (None, None); _event := None;
     tmem := []; tmem2 := []; tmem3 := [] |}.

(** [init], lines 145-174. *)
Definition init (dev_num : Z) (opt : gpu_context_opt) (this : ofp_context_t)
  : M W ofp_context_t :=
  do this <-
    (if NVCC then
       do (r, attr) <- native FuncGetAttributes (cudaFuncGetAttributes rt);
       if negb (cudaSuccess =? r) then throw {| result := r |}
       else ret (set_ptx_version (Some (ptxVersion attr)) this)
     else ret (set_ptx_version (Some 60) this));
  do (_, num_dev) <- native GetDeviceCount (cudaGetDeviceCount rt);
  do num_dev <- read num_dev;
  if num_dev =? 0 then ret this
  else
    do _ <-
      (if negb (gpu_context_opt_eqb opt dummy) then
         (* INT_MIN % -1 overflows *)
         if (num_dev =? -1) && (dev_num =? INT_MIN) then undefined
         else
           do _ <- native (SetDevice (Z.rem dev_num num_dev))
                          (cudaSetDevice rt (Z.rem dev_num num_dev));
           ret tt
       else ret tt);
    do (_, ord) <- native GetDevice (cudaGetDevice rt);
    do (_, p) <- native (GetDeviceProperties ord) (cudaGetDeviceProperties rt ord);
    let this := set_props (written (_props this) p) this in
    do (_, e) <- native EventCreate (cudaEventCreate rt);
    let this := set_timer (written (fst (_timer this)) e, snd (_timer this)) this in
    do (_, e) <- native EventCreate (cudaEventCreate rt);
    let this := set_timer (fst (_timer this), written (snd (_timer this)) e) this in
    do (_, e) <- native EventCreate (cudaEventCreate rt);
    ret (set_event (written (_event this) e) this).

(** The constructor, lines 184-192 (defaults: [no_print_props], 0, 0). *)
Definition ofp_context_t_ctor (opt : gpu_context_opt) (dev_num : Z)
    (stream_ : cudaStream_t) : M W ofp_context_t :=
  do this <- init dev_num opt (uninitialized stream_);
  do _ <-
    (if gpu_context_opt_eqb opt print_props
     then print (device_prop_string (_props this) ++ endl)%string
     else ret tt);
  ret this.

(** The destructor, lines 194-199. *)
Definition ofp_context_t_dtor (this : ofp_context_t) : M W unit :=
  do _ <- native (EventDestroy (fst (_timer this)))
                 (cudaEventDestroy rt (fst (_timer this)));
  do _ <- native (EventDestroy (snd (_timer this)))
                 (cudaEventDestroy rt (snd (_timer this)));
  do _ <- native (EventDestroy (_event this)) (cudaEventDestroy rt (_event this));
  ret tt.

Definition props (this : ofp_context_t) : M W (indet cudaDeviceProp) :=
  ret (_props this).
Definition ptx_version (this : ofp_context_t) : M W (indet Z) :=
  ret (_ptx_version this).
Definition stream (this : ofp_context_t) : M W cudaStream_t :=
  ret (_stream this).

(** [alloc], lines 206-215. *)
Definition alloc (this : ofp_context_t) (size : N) (space : memory_space_t)
  : M W pointer :=
  let p := nullptr in
  if negb (size =? 0)%N then
    do (r, w) <-
      (if memory_space_eqb memory_space_device space
       then native (Malloc size) (cudaMalloc rt size)
       else native (MallocHost size) (cudaMallocHost rt size));
    let p := match w with Some q => q | None => p end in
    if negb (cudaSuccess =? r) then throw {| result := r |}
    else ret p
  else ret p.

(** [free], lines 217-224. *)
Definition free (this : ofp_context_t) (p : pointer) (space : memory_space_t)
  : M W unit :=
  if negb (p =? nullptr)%N then
    do r <-
      (if memory_space_eqb memory_space_device space
       then native (Free p) (cudaFree rt p)
       else native (FreeHost p) (cudaFreeHost rt p));
    if negb (cudaSuccess =? r) then throw {| result := r |}
    else ret tt
  else ret tt.

(** [synchronize], lines 226-232. *)
Definition synchronize (this : ofp_context_t) : M W unit :=
  do r <-
    (if negb (_stream this =? 0)%N
     then native (StreamSynchronize (_stream this))
                 (cudaStreamSynchronize rt (_stream this))
     else native DeviceSynchronize (cudaDeviceSynchronize rt));
  if negb (cudaSuccess =? r) then throw {| result := r |}
  else ret tt.

Definition event (this : ofp_context_t) : M W (indet cudaEvent_t) :=
  ret (_event this).

(** [timer_begin], lines 239-242. *)
Definition timer_begin (this : ofp_context_t) : M W unit :=
  do _ <- native (EventRecord (fst (_timer this)) (_stream this))
                 (cudaEventRecord rt (fst (_timer this)) (_stream this));
  ret tt.

(** [timer_end], lines 244-251: [ms / 1.0e3] is a division of doubles. *)
Definition timer_end (this : ofp_context_t) : M W float :=
  do _ <- native (EventRecord (snd (_timer this)) (_stream this))
                 (cudaEventRecord rt (snd (_timer this)) (_stream this));
  do _ <- native (EventSynchronize (snd (_timer this)))
                 (cudaEventSynchronize rt (snd (_timer this)));
  do (_, ms) <- native (EventElapsedTime (fst (_timer this)) (snd (_timer this)))
                  (cudaEventElapsedTime rt (fst (_timer this)) (snd (_timer this)));
  do ms <- read ms;
  ret (ms / 1.0e3)%float.

(** [getDevice], lines 253-260. *)
Definition getDevice (this : ofp_context_t) : M W Z :=
  let dev := 0 in
  do (_, w) <- native GetDevice (cudaGetDevice rt);
  ret (match w with Some d => d | None => dev end).

(** [getNDevice], lines 262-268. *)
Definition getNDevice (this : ofp_context_t) : M W (indet Z) :=
  do (_, num_dev) <- native GetDeviceCount (cudaGetDeviceCount rt);
  ret num_dev.

(** The three accessors, lines 270-283, return references to members. *)
Definition getTemporalCUB : reference ofp_context_t byte_vector :=
  {| deref := tmem; assign := set_tmem |}.
Definition getTemporalCUB2 : reference ofp_context_t byte_vector :=
  {| deref := tmem2; assign := set_tmem2 |}.
Definition getTemporalCUB3 : reference ofp_context_t byte_vector :=
  {| deref := tmem3; assign := set_tmem3 |}.

(** *** Vocabulary of the statements below *)

(** The native call that serves an allocation in a space, and the entry it
    leaves in the log; likewise for a release. *)
Definition native_alloc (space : memory_space_t) (size : N)
  : W -> cudaError_t * option pointer * W :=
  match space with
  | memory_space_device => cudaMalloc rt size
  | memory_space_host => cudaMallocHost rt size
  end.

Definition alloc_call (space : memory_space_t) (size : N) : call :=
  match space with
  | memory_space_device => Malloc size
  | memory_space_host => MallocHost size
  end.

Definition native_free (space : memory_space_t) (p : pointer)
  : W -> cudaError_t * W :=
  match space with
  | memory_space_device => cudaFree rt p
  | memory_space_host => cudaFreeHost rt p
  end.

Definition free_call (space : memory_space_t) (p : pointer) : call :=
  match space with
  | memory_space_device => Free p
  | memory_space_host => FreeHost p
  end.

(** The prologue of [init] queries the PTX version through the runtime
    only when compiled by NVCC.  Starting in runtime state [w]: whether
    that query fails and with which status, the version [init] stores, the
    calls of the prologue and the runtime state in which the devices are
    then counted. *)
Definition ptx_query_status (w : W) : cudaError_t :=
  if NVCC then fst (fst (cudaFuncGetAttributes rt w)) else cudaSuccess.

Definition ptx_query_fails (w : W) : bool :=
  negb (cudaSuccess =? ptx_query_status w).

Definition ptx_version_found (w : W) : Z :=
  if NVCC then ptxVersion (snd (fst (cudaFuncGetAttributes rt w))) else 60.

Definition prologue_calls : list call :=
  if NVCC then [FuncGetAttributes] else [].

Definition world_at_count (w : W) : W :=
  if NVCC then snd (cudaFuncGetAttributes rt w) else w.

(** The number of devices the runtime reports to [init], if it writes
    one, and the runtime state it leaves. *)
Definition devices_reported (w : W) : option Z :=
  snd (fst (cudaGetDeviceCount rt (world_at_count w))).

Definition world_after_count (w : W) : W :=
  snd (cudaGetDeviceCount rt (world_at_count w)).

(** What the constructor prints once [init] has returned. *)
Definition props_line (opt : gpu_context_opt) (this : ofp_context_t)
  : list string :=
  if gpu_context_opt_eqb opt print_props
  then [(device_prop_string (_props this) ++ endl)%string]
  else [].

(** The runtime writes the out-parameter of every [cudaEventCreate] and of
    every [cudaGetDeviceProperties]. *)
Definition writes_events : Prop :=
  forall w, snd (fst (cudaEventCreate rt w)) <> None.

Definition writes_props : Prop :=
  forall ord w, snd (fst (cudaGetDeviceProperties rt ord w)) <> None.

(** A handle that was assigned. *)
Definition assigned {A} (v : indet A) : bool :=
  match v with Some _ => true | None => false end.

Definition destroys_assigned (c : call) : bool :=
  match c with EventDestroy e => assigned e | _ => false end.

End Variant.
End CudaGpu.

(** ** The CPU variant ([#ifdef CUDA_ON_CPU], lines 13-108) *)
Module CudaOnCpu.
Section Variant.

Context {W : Type}.
(** The expansion of [__FILE__]. *)
Variable FILE : string.

Record ofp_context_t := {
  _props : string;
  tmem : byte_vector
}.

(** [std::cout << __FILE__ << ":" << __LINE__ << " Not implemented" << std::endl] *)
Definition not_implemented (LINE : nat) : M W unit :=
  do _ <- print FILE;
  do _ <- print ":";
  do _ <- print (NilEmpty.string_of_uint (Nat.to_uint LINE));
  do _ <- print " Not implemented";
  print endl.

(** The text of that diagnostic. *)
Definition diagnostic (LINE : nat) : list string :=
  [FILE; ":"; NilEmpty.string_of_uint (Nat.to_uint LINE); " Not implemented"; endl].

(** [init], lines 35-36: empty. *)
Definition init (dev_num : Z) (opt : gpu_context_opt) (this : ofp_context_t)
  : M W ofp_context_t :=
  ret this.

(** The constructor, lines 45-46: an empty body over default-constructed
    members (defaults: [no_print_props], 0, 0). *)
Definition ofp_context_t_ctor (opt : gpu_context_opt) (dev_num : Z) (stream_ : Z)
  : M W ofp_context_t :=
  ret {| _props := ""; tmem := [] |}.

Definition ofp_context_t_dtor (this : ofp_context_t) : M W unit := ret tt.

Definition props (this : ofp_context_t) : M W string := ret (_props this).

Definition ptx_version (this : ofp_context_t) : M W Z := ret 0.

Definition stream (this : ofp_context_t) : M W Z :=
  do _ <- not_implemented 63; ret 0.

Definition alloc (this : ofp_context_t) (size : N) (space : Z) : M W pointer :=
  do _ <- not_implemented 70; ret nullptr.

Definition free (this : ofp_context_t) (p : pointer) (space : Z) : M W unit :=
  not_implemented 76.

Definition synchronize (this : ofp_context_t) : M W unit :=
  not_implemented 81.

Definition event (this : ofp_context_t) : M W Z :=
  do _ <- not_implemented 86; ret 0.

Definition timer_begin (this : ofp_context_t) : M W unit :=
  not_implemented 92.

Definition timer_end (this : ofp_context_t) : M W float :=
  do _ <- not_implemented 97; ret 0.0%float.

Definition getDevice (this : ofp_context_t) : M W Z :=
  do _ <- not_implemented 103; ret 0.

(** *** Vocabulary of the statements below *)

(** On machine [m] the operation returns [v] after printing the
    diagnostic of source line [LINE], and does nothing else. *)
Definition degrades_at {A} (LINE : nat) (op : M W A) (v : A) (m : machine W)
  : Prop :=
  op m = (Returns v, after m (world m) [] (diagnostic LINE)).

(** On machine [m] the operation returns a value and prints a diagnostic. *)
Definition emits_diagnostic {A} (op : M W A) (m : machine W) : Prop :=
  exists v LINE, degrades_at LINE op v m.

(** On machine [m] the operation returns [v] and does nothing else. *)
Definition silent_at {A} (op : M W A) (v : A) (m : machine W) : Prop :=
  op m = (Returns v, m).

(** *** Member calls in sequence

    A caller that invokes public member functions one after the other and
    drops what they return. *)
Inductive member_call :=
| call_props | call_ptx_version | call_stream
| call_alloc (size : N) (space : Z) | call_free (p : pointer) (space : Z)
| call_synchronize | call_event | call_timer_begin | call_timer_end
| call_getDevice.

Definition perform (this : ofp_context_t) (c : member_call) : M W unit :=
  match c with
  | call_props => do _ <- props this; ret tt
  | call_ptx_version => do _ <- ptx_version this; ret tt
  | call_stream => do _ <- stream this; ret tt
  | call_alloc size space => do _ <- alloc this size space; ret tt
  | call_free p space => free this p space
  | call_synchronize => synchronize this
  | call_event => do _ <- event this; ret tt
  | call_timer_begin => timer_begin this
  | call_timer_end => do _ <- timer_end this; ret tt
  | call_getDevice => do _ <- getDevice this; ret tt
  end.

Fixpoint perform_all (this : ofp_context_t) (cs : list member_call) : M W unit :=
  match cs with
  | [] => ret tt
  | c :: cs => do _ <- perform this c; perform_all this cs
  end.

(** The source line whose diagnostic a member function prints, if any. *)
Definition source_line (c : member_call) : option nat :=
  match c with
  | call_props | call_ptx_version => None
  | call_stream => Some 63%nat
  | call_alloc _ _ => Some 70%nat
  | call_free _ _ => Some 76%nat
  | call_synchronize => Some 81%nat
  | call_event => Some 86%nat
  | call_timer_begin => Some 92%nat
  | call_timer_end => Some 97%nat
  | call_getDevice => Some 103%nat
  end.

Definition diagnostics (cs : list member_call) : list string :=
  concat (map (fun c => match source_line c with
                        | Some LINE => diagnostic LINE
                        | None => []
                        end) cs).

End Variant.
End CudaOnCpu.

(** ** The variant without CUDA (lines 288-309): a constructor and nothing
    else. *)
Module NoCuda.
Section Variant.

Context {W : Type}.

Record ofp_context_t := mk_ofp_context_t { }.

Definition ofp_context_t_ctor (opt : gpu_context_opt) (dev_num : Z)
  : M W ofp_context_t :=
  ret mk_ofp_context_t.

End Variant.
End NoCuda.

(** ** A small runtime to run the definitions on

    A machine with [devices] accelerators.  Allocation hands out increasing
    addresses and fails with code 2 when more than [capacity] bytes are
    asked for; releasing an address that was never handed out fails
    with code 1; events are numbered from 1 and stamped, in milliseconds,
    with a clock that advances by 250 at every record. *)
Module TestRuntime.

Record state := {
  devices : Z;
  current : Z;
  capacity : N;
  next_address : N;
  next_event : N;
  clock : Z;
  stamps : list (N * Z);
  driver_ok : bool
}.

Definition props_t := Z.

Definition upd_current d (s : state) :=
  {| devices := devices s; current := d; capacity := capacity s;
     next_address := next_address s; next_event := next_event s;
     clock := clock s; stamps := stamps s; driver_ok := driver_ok s |}.
Definition upd_address a (s : state) :=
  {| devices := devices s; current := current s; capacity := capacity s;
     next_address := a; next_event := next_event s;
     clock := clock s; stamps := stamps s; driver_ok := driver_ok s |}.
Definition upd_event e (s : state) :=
  {| devices := devices s; current := current s; capacity := capacity s;
     next_address := next_address s; next_event := e;
     clock := clock s; stamps := stamps s; driver_ok := driver_ok s |}.
Definition upd_clock c st (s : state) :=
  {| devices := devices s; current := current s; capacity := capacity s;
     next_address := next_address s; next_event := next_event s;
     clock := c; stamps := st; driver_ok := driver_ok s |}.

Fixpoint stamp_of (e : N) (l : list (N * Z)) : option Z :=
  match l with
  | [] => None
  | (e', t) :: l => if (e =? e')%N then Some t else stamp_of e l
  end.

Definition t_malloc (size : N) (s : state) : cudaError_t * option pointer * state :=
  if (size <=? capacity s)%N
  then (0, Some (next_address s), upd_address (next_address s + size)%N s)
  else (2, None, s).

Definition t_free (p : pointer) (s : state) : cudaError_t * state :=
  if (p <? next_address s)%N then (0, s) else (1, s).

Definition t_record (e : indet cudaEvent_t) (_ : cudaStream_t) (s : state)
  : cudaError_t * state :=
  match e with
  | Some e => (0, upd_clock (clock s + 250) ((e, clock s + 250) :: stamps s) s)
  | None => (400, s)
  end.

Definition t_elapsed (e0 e1 : indet cudaEvent_t) (s : state)
  : cudaError_t * option float * state :=
  match e0, e1 with
  | Some a, Some b =>
      match stamp_of a (stamps s), stamp_of b (stamps s) with
      | Some ta, Some tb => (0, Some (PrimFloat.of_uint63 (Uint63.of_Z (tb - ta))), s)
      | _, _ => (400, None, s)
      end
  | _, _ => (400, None, s)
  end.

Definition runtime : cuda_runtime state props_t := {|
  cudaFuncGetAttributes := fun s =>
    if driver_ok s then (0, {| ptxVersion := 70 |}, s)
    else (35, {| ptxVersion := 0 |}, s);
  cudaGetDeviceCount := fun s =>
    (if devices s =? 0 then 100 else 0, Some (devices s), s);
  cudaSetDevice := fun d s =>
    if (0 <=? d) && (d <? devices s) then (0, upd_current d s) else (101, s);
  cudaGetDevice := fun s =>
    if devices s =? 0 then (100, None, s) else (0, Some (current s), s);
  cudaGetDeviceProperties := fun ord s =>
    match ord with
    | Some d => if (0 <=? d) && (d <? devices s) then (0, Some (1000 + d), s)
                else (101, None, s)
    | None => (101, None, s)
    end;
  cudaEventCreate := fun s =>
    (0, Some (next_event s), upd_event (next_event s + 1)%N s);
  cudaEventDestroy := fun e s =>
    match e with
    | Some e => if (e <? next_event s)%N then (0, s) else (400, s)
    | None => (400, s)
    end;
  cudaMalloc := t_malloc;
  cudaMallocHost := t_malloc;
  cudaFree := t_free;
  cudaFreeHost := t_free;
  cudaStreamSynchronize := fun _ s => (0, s);
  cudaDeviceSynchronize := fun s => (0, s);
  cudaEventRecord := t_record;
  cudaEventSynchronize := fun _ s => (0, s);
  cudaEventElapsedTime := t_elapsed
|}.

(** A machine with [n] devices, 4096 bytes of memory and an empty log. *)
Definition boot (n : Z) (ok : bool) : machine state :=
  {| world := {| devices := n; current := 0; capacity := 4096;
                 next_address := 256; next_event := 1; clock := 0;
                 stamps := []; driver_ok := ok |};
     calls := []; stdout := [] |}.

Definition show_props (p : indet props_t) : string :=
  match p with Some _ => "device" | None => "?" end.

Definition source_file : string := "ofp_context.hpp".

(** A context of each variant as it is before its constructor body runs. *)
Definition gpu_context : @CudaGpu.ofp_context_t props_t :=
  CudaGpu.uninitialized 0%N.

Definition cpu_context : CudaOnCpu.ofp_context_t :=
  {| CudaOnCpu._props := ""; CudaOnCpu.tmem := [] |}.

(** A context whose two timer events and event were created. *)
Definition timed_context : @CudaGpu.ofp_context_t props_t :=
  {| CudaGpu._props := Some 1000; CudaGpu._ptx_version := Some 70;
     CudaGpu._stream := 0%N; CudaGpu._timer := (Some 1%N, Some 2%N);
     CudaGpu._event := Some 3%N;
     CudaGpu.tmem := []; CudaGpu.tmem2 := []; CudaGpu.tmem3 := [] |}.

(** Machines: one and two devices with a working driver, no device with
    and without a working driver. *)
Definition one_device : machine state := boot 1 true.
Definition two_devices : machine state := boot 2 true.
Definition no_device : machine state := boot 0 true.
Definition no_driver : machine state := boot 0 false.

(** The same runtime, except that a property query always writes. *)
Definition lenient : cuda_runtime state props_t := {|
  cudaFuncGetAttributes := cudaFuncGetAttributes runtime;
  cudaGetDeviceCount := cudaGetDeviceCount runtime;
  cudaSetDevice := cudaSetDevice runtime;
  cudaGetDevice := cudaGetDevice runtime;
  cudaGetDeviceProperties := fun ord s =>
    (0, Some (match ord with Some d => 1000 + d | None => 1000 end), s);
  cudaEventCreate := cudaEventCreate runtime;
  cudaEventDestroy := cudaEventDestroy runtime;
  cudaMalloc := cudaMalloc runtime;
  cudaMallocHost := cudaMallocHost runtime;
  cudaFree := cudaFree runtime;
  cudaFreeHost := cudaFreeHost runtime;
  cudaStreamSynchronize := cudaStreamSynchronize runtime;
  cudaDeviceSynchronize := cudaDeviceSynchronize runtime;
  cudaEventRecord := cudaEventRecord runtime;
  cudaEventSynchronize := cudaEventSynchronize runtime;
  cudaEventElapsedTime := cudaEventElapsedTime runtime
|}.

(** A context on stream 7. *)
Definition stream_context : @CudaGpu.ofp_context_t props_t :=
  CudaGpu.uninitialized 7%N.

End TestRuntime.

(** ** The variants side by side

    Exactly one variant is compiled into a build.  The tables below list,
    per variant, the public member functions and the scratch vectors its
    class declares, each with the definition that embeds it. *)
Inductive backend := RealAccelerator | CpuStub | Disabled.

Inductive capability :=
| cap_alloc | cap_free | cap_synchronize | cap_event
| cap_timer_begin | cap_timer_end | cap_getDevice | cap_getNDevice
| cap_props | cap_ptx_version | cap_stream
| cap_getTemporalCUB | cap_getTemporalCUB2 | cap_getTemporalCUB3.

Inductive scratch := buf_tmem | buf_tmem2 | buf_tmem3.

#[global] Instance capability_eq_dec : EqDecision capability.
Proof. solve_decision. Defined.

#[global] Instance scratch_eq_dec : EqDecision scratch.
Proof. solve_decision. Defined.

(** A declaration: its name in the source and the definition embedding it. *)
Inductive declared (Name : Type) :=
| Declared (name : Name) {T : Type} (impl : T).
Arguments Declared {Name} name {T} impl.

Definition name_of {Name} (d : declared Name) : Name :=
  match d with Declared n _ => n end.

(** The capability set of the contract and the three scratch vectors. *)
Definition contract : list capability :=
  [cap_alloc; cap_free; cap_synchronize; cap_event; cap_timer_begin;
   cap_timer_end; cap_getDevice; cap_getNDevice; cap_props; cap_ptx_version;
   cap_stream].

Definition accessors : list capability :=
  [cap_getTemporalCUB; cap_getTemporalCUB2; cap_getTemporalCUB3].

Section Variants.

Context {W cudaDeviceProp : Type}.
Variable rt : cuda_runtime W cudaDeviceProp.
Variable NVCC : bool.
Variable device_prop_string : indet cudaDeviceProp -> string.
Variable FILE : string.

(** The public member functions of each class, in source order. *)
Definition public_members (b : backend) : list (declared capability) :=
  match b with
  | RealAccelerator =>
      [Declared cap_props (@CudaGpu.props W cudaDeviceProp);
       Declared cap_ptx_version (@CudaGpu.ptx_version W cudaDeviceProp);
       Declared cap_stream (@CudaGpu.stream W cudaDeviceProp);
       Declared cap_alloc (CudaGpu.alloc rt);
       Declared cap_free (CudaGpu.free rt);
       Declared cap_synchronize (CudaGpu.synchronize rt);
       Declared cap_event (@CudaGpu.event W cudaDeviceProp);
       Declared cap_timer_begin (CudaGpu.timer_begin rt);
       Declared cap_timer_end (CudaGpu.timer_end rt);
       Declared cap_getDevice (CudaGpu.getDevice rt);
       Declared cap_getNDevice (CudaGpu.getNDevice rt);
       Declared cap_getTemporalCUB (@CudaGpu.getTemporalCUB cudaDeviceProp);
       Declared cap_getTemporalCUB2 (@CudaGpu.getTemporalCUB2 cudaDeviceProp);
       Declared cap_getTemporalCUB3 (@CudaGpu.getTemporalCUB3 cudaDeviceProp)]
  | CpuStub =>
      [Declared cap_props (@CudaOnCpu.props W);
       Declared cap_ptx_version (@CudaOnCpu.ptx_version W);
       Declared cap_stream (@CudaOnCpu.stream W FILE);
       Declared cap_alloc (@CudaOnCpu.alloc W FILE);
       Declared cap_free (@CudaOnCpu.free W FILE);
       Declared cap_synchronize (@CudaOnCpu.synchronize W FILE);
       Declared cap_event (@CudaOnCpu.event W FILE);
       Declared cap_timer_begin (@CudaOnCpu.timer_begin W FILE);
       Declared cap_timer_end (@CudaOnCpu.timer_end W FILE);
       Declared cap_getDevice (@CudaOnCpu.getDevice W FILE)]
  | Disabled => []
  end.

(** The scratch vectors each class declares as members. *)
Definition scratch_buffers (b : backend) : list (declared scratch) :=
  match b with
  | RealAccelerator =>
      [Declared buf_tmem (@CudaGpu.tmem cudaDeviceProp);
       Declared buf_tmem2 (@CudaGpu.tmem2 cudaDeviceProp);
       Declared buf_tmem3 (@CudaGpu.tmem3 cudaDeviceProp)]
  | CpuStub => [Declared buf_tmem CudaOnCpu.tmem]
  | Disabled => []
  end.

Definition exposes (b : backend) (c : capability) : bool :=
  existsb (fun d => bool_decide (name_of d = c)) (public_members b).

Definition exposes_all (b : backend) (cs : list capability) : bool :=
  forallb (exposes b) cs.

(** The context object of whichever variant the build selected. *)
Inductive context :=
| RealCtx (this : @CudaGpu.ofp_context_t cudaDeviceProp)
| StubCtx (this : CudaOnCpu.ofp_context_t)
| DisabledCtx (this : NoCuda.ofp_context_t).

(** Constructing the context of variant [b]. *)
Definition construct (b : backend) (opt : gpu_context_opt) (dev_num : Z)
    (stream_ : N) : M W context :=
  match b with
  | RealAccelerator =>
      do this <- CudaGpu.ofp_context_t_ctor rt NVCC device_prop_string
                   opt dev_num stream_;
      ret (RealCtx this)
  | CpuStub =>
      do this <- CudaOnCpu.ofp_context_t_ctor opt dev_num (Z.of_N stream_);
      ret (StubCtx this)
  | Disabled =>
      do this <- NoCuda.ofp_context_t_ctor opt dev_num;
      ret (DisabledCtx this)
  end.

(** Variant [b] has the whole capability set of the contract, the three
    accessors and three scratch vectors. *)
Definition full_capability_set (b : backend) : Prop :=
  exposes_all b contract = true /\
  exposes_all b accessors = true /\
  map name_of (scratch_buffers b) = [buf_tmem; buf_tmem2; buf_tmem3].

(** [free] as the selected variant has it; the last variant has none. *)
Definition free_of (c : context)
  : option (pointer -> memory_space_t -> M W unit) :=
  match c with
  | RealCtx this => Some (CudaGpu.free rt this)
  | StubCtx this =>
      Some (fun p space => CudaOnCpu.free FILE this p (memory_space_to_int space))
  | DisabledCtx _ => None
  end.

End Variants.

(** ** The emulation variables of [cudify_vars.cpp] *)
Module Cudify.

(** Modelled from the spec: [dim3] is declared in cudify_hardware_cpu.hpp,
    which is not part of the sources at hand; "a 3-component integer
    vector (x,y,z)". *)
Record dim3 := { x : Z; y : Z; z : Z }.

(** An operating-system thread of the process. *)
Definition thread_id := nat.

(** The variables declared [thread_local] (lines 16-17 and 30-31): every
    thread has an instance of its own. *)
Record thread_locals := {
  tl_threadIdx : dim3;
  tl_blockIdx : dim3;
  tl_vct_atomic_add : Z;
  tl_vct_atomic_rem : Z
}.

(** The variables declared at namespace scope without [thread_local]
    (lines 23-24, 28 and 33): one instance for the process. *)
Record globals := {
  g_blockDim : dim3;
  g_gridDim : dim3;
  g_init_wrappers_call : bool;
  g_n_workers : N
}.

Record memory := {
  global : globals;
  tls : gmap thread_id thread_locals
}.

Section Storage.

(** What the default constructor of [dim3] leaves in a variable of static
    or thread storage duration. *)
Variable dim3_default : dim3.

(** Static initialization: [int]s without initializer are zero,
    [init_wrappers_call = false], [n_workers = 1]. *)
Definition initial_thread_locals : thread_locals :=
  {| tl_threadIdx := dim3_default; tl_blockIdx := dim3_default;
     tl_vct_atomic_add := 0; tl_vct_atomic_rem := 0 |}.

Definition initial_globals : globals :=
  {| g_blockDim := dim3_default; g_gridDim := dim3_default;
     g_init_wrappers_call := false; g_n_workers := 1 |}.

Definition initial_memory : memory :=
  {| global := initial_globals; tls := ∅ |}.

(** The instance of the thread-local variables that thread [t] sees; it
    comes into being, initialized, at the thread's first access. *)
Definition instance (t : thread_id) (m : memory) : thread_locals :=
  default initial_thread_locals (tls m !! t).

(** A variable, as code running on thread [t] reads and writes it. *)
Record variable (A : Type) := {
  load : thread_id -> memory -> A;
  store : thread_id -> A -> memory -> memory
}.
#[global] Arguments load {A} _ _ _.
#[global] Arguments store {A} _ _ _ _.

Definition thread_local {A} (get : thread_locals -> A)
    (set : A -> thread_locals -> thread_locals) : variable A :=
  {| load := fun t m => get (instance t m);
     store := fun t v m =>
       {| global := global m;
          tls := <[t := set v (instance t m)]> (tls m) |} |}.

Definition process_wide {A} (get : globals -> A)
    (set : A -> globals -> globals) : variable A :=
  {| load := fun _ m => get (global m);
     store := fun _ v m => {| global := set v (global m); tls := tls m |} |}.

(** [thread_local dim3 threadIdx;] *)
Definition threadIdx : variable dim3 :=
  thread_local tl_threadIdx
    (fun v s => {| tl_threadIdx := v; tl_blockIdx := tl_blockIdx s;
                   tl_vct_atomic_add := tl_vct_atomic_add s;
                   tl_vct_atomic_rem := tl_vct_atomic_rem s |}).

(** [thread_local dim3 blockIdx;] *)
Definition blockIdx : variable dim3 :=
  thread_local tl_blockIdx
    (fun v s => {| tl_threadIdx := tl_threadIdx s; tl_blockIdx := v;
                   tl_vct_atomic_add := tl_vct_atomic_add s;
                   tl_vct_atomic_rem := tl_vct_atomic_rem s |}).

(** [dim3 blockDim;] *)
Definition blockDim : variable dim3 :=
  process_wide g_blockDim
    (fun v s => {| g_blockDim := v; g_gridDim := g_gridDim s;
                   g_init_wrappers_call := g_init_wrappers_call s;
                   g_n_workers := g_n_workers s |}).

(** [dim3 gridDim;] *)
Definition gridDim : variable dim3 :=
  process_wide g_gridDim
    (fun v s => {| g_blockDim := g_blockDim s; g_gridDim := v;
                   g_init_wrappers_call := g_init_wrappers_call s;
                   g_n_workers := g_n_workers s |}).

(** [bool init_wrappers_call = false;] *)
Definition init_wrappers_call : variable bool :=
  process_wide g_init_wrappers_call
    (fun v s => {| g_blockDim := g_blockDim s; g_gridDim := g_gridDim s;
                   g_init_wrappers_call := v;
                   g_n_workers := g_n_workers s |}).

(** [thread_local int vct_atomic_add;] *)
Definition vct_atomic_add : variable Z :=
  thread_local tl_vct_atomic_add
    (fun v s => {| tl_threadIdx := tl_threadIdx s; tl_blockIdx := tl_blockIdx s;
                   tl_vct_atomic_add := v;
                   tl_vct_atomic_rem := tl_vct_atomic_rem s |}).

(** [thread_local int vct_atomic_rem;] *)
Definition vct_atomic_rem : variable Z :=
  thread_local tl_vct_atomic_rem
    (fun v s => {| tl_threadIdx := tl_threadIdx s; tl_blockIdx := tl_blockIdx s;
                   tl_vct_atomic_add := tl_vct_atomic_add s;
                   tl_vct_atomic_rem := v |}).

(** [size_t n_workers = 1;] *)
Definition n_workers : variable N :=
  process_wide g_n_workers
    (fun v s => {| g_blockDim := g_blockDim s; g_gridDim := g_gridDim s;
                   g_init_wrappers_call := g_init_wrappers_call s;
                   g_n_workers := v |}).

(** A variable is private to threads when a store by one thread is seen
    by that thread and leaves what every other thread loads untouched;
    it is shared when a store by any thread is what every thread loads. *)
Definition private_to_threads {A} (v : variable A) : Prop :=
  forall (t u : thread_id) (a : A) (m : memory),
    load v t (store v t a m) = a /\
    (t <> u -> load v u (store v t a m) = load v u m).

Definition shared_by_threads {A} (v : variable A) : Prop :=
  forall (t u : thread_id) (a : A) (m : memory),
    load v u (store v t a m) = a.

(** Modelled from the spec: the scheduler that launches kernels is not
    part of the sources at hand.  Step 1 of its launch protocol: "Partition
    the set of blocks ([gridDim.x*gridDim.y*gridDim.z] of them) across up to
    [WorkerCount] workers; each worker processes a disjoint subset of
    blocks".  A partition is given by the worker each block goes to. *)
Definition block_count (grid : dim3) : nat :=
  Z.to_nat (x grid * y grid * z grid).

Definition partitions (workers : N) (grid : dim3) (worker_of : nat -> N) : bool :=
  forallb (fun b => (worker_of b <? workers)%N) (seq 0 (block_count grid)).

(** The blocks worker [w] processes. *)
Definition blocks_of (grid : dim3) (worker_of : nat -> N) (w : N) : list nat :=
  List.filter (fun b => (worker_of b =? w)%N) (seq 0 (block_count grid)).

(** The workers that get at least one block. *)
Definition busy_workers (grid : dim3) (worker_of : nat -> N) : list N :=
  nodup N.eq_dec (map worker_of (seq 0 (block_count grid))).

(** *** Stores in sequence *)

(** The stores [ws], each by the thread named with it, oldest first. *)
Fixpoint store_all {A} (v : variable A) (ws : list (thread_id * A)) (m : memory)
  : memory :=
  match ws with
  | [] => m
  | (t, a) :: ws => store_all v ws (store v t a m)
  end.

(** The value thread [u] stored last, and the value stored last by any
    thread. *)
Fixpoint last_stored_by {A} (u : thread_id) (ws : list (thread_id * A)) : option A :=
  match ws with
  | [] => None
  | (t, a) :: ws =>
      match last_stored_by u ws with
      | Some b => Some b
      | None => if Nat.eqb t u then Some a else None
      end
  end.

Fixpoint last_stored {A} (ws : list (thread_id * A)) : option A :=
  match ws with
  | [] => None
  | (_, a) :: ws =>
      match last_stored ws with
      | Some b => Some b
      | None => Some a
      end
  end.

(** *** The scheduler that binds the variables

    Modelled from the spec: the scheduler that launches kernels and the
    initialization that sets the worker count are not part of the sources
    at hand.  Section 3: [blockDim] and [gridDim] are "per-launch, set
    once, read-only during execution"; the worker count is "set once at
    initialization".  Section 4.2, step 2: "For each block assigned to a
    worker: set blockIndex (shared by all threads of that block) and, for
    every thread coordinate within blockDim, acquire one execution context
    from the pool, bind threadIndex for that context, and start (or resume)
    the kernel body on it"; steps 3 and 4: at a barrier the context
    suspends, and once every thread of the block has reached it each is
    resumed in turn, "for as many barriers as the kernel body contains".
    An emulated atomic leaves its result in a scratch cell that is "read
    back by the kernel body immediately after the emulated atomic call".
    Workers are threads of the process and run in parallel: an execution is
    any interleaving of what the workers do. *)

(** A simulated thread: the block it belongs to and its place in it. *)
Record simulated_thread := { in_block : dim3; at_thread : dim3 }.

Inductive scratch_cell := cell_add | cell_rem.

Definition scratch_variable (c : scratch_cell) : variable Z :=
  match c with cell_add => vct_atomic_add | cell_rem => vct_atomic_rem end.

(** What a worker does, one access to the variables at a time: the
    scheduler sets the block index, binds the thread index, starts or
    resumes the body of a simulated thread (which reads the registers);
    the running body issues an emulated atomic that leaves [v] in a
    scratch cell, and reads that cell back. *)
Inductive access :=
| SetBlock (b : dim3)
| Bind (t : dim3)
| Resume (s : simulated_thread)
| AtomicIssue (c : scratch_cell) (v : Z)
| AtomicRead (c : scratch_cell) (v : Z).

(** What the body of a simulated thread reads from the registers. *)
Record registers := {
  seen_threadIdx : dim3;
  seen_blockIdx : dim3;
  seen_blockDim : dim3;
  seen_gridDim : dim3;
  seen_n_workers : N
}.

(** What was read during an execution: by the body of [s] when resumed, or
    from a scratch cell in which the reader's atomic had left [issued]. *)
Inductive seen :=
| SawRegisters (s : simulated_thread) (r : registers)
| SawScratch (c : scratch_cell) (issued got : Z).

Definition read_registers (w : thread_id) (m : memory) : registers :=
  {| seen_threadIdx := load threadIdx w m;
     seen_blockIdx := load blockIdx w m;
     seen_blockDim := load blockDim w m;
     seen_gridDim := load gridDim w m;
     seen_n_workers := load n_workers w m |}.

(** Worker [w] performs an access: its effect on the memory and what it
    reads. *)
Definition perform (w : thread_id) (a : access) (m : memory) : memory :=
  match a with
  | SetBlock b => store blockIdx w b m
  | Bind t => store threadIdx w t m
  | AtomicIssue c v => store (scratch_variable c) w v m
  | Resume _ | AtomicRead _ _ => m
  end.

Definition observed (w : thread_id) (a : access) (m : memory) : list seen :=
  match a with
  | Resume s => [SawRegisters s (read_registers w m)]
  | AtomicRead c v => [SawScratch c v (load (scratch_variable c) w m)]
  | SetBlock _ | Bind _ | AtomicIssue _ _ => []
  end.

(** An execution: the accesses of all workers in the order they happen. *)
Fixpoint execute (es : list (thread_id * access)) (m : memory)
  : list seen * memory :=
  match es with
  | [] => ([], m)
  | (w, a) :: es =>
      let '(tr, m') := execute es (perform w a m) in
      (observed w a m ++ tr, m')
  end.

(** What worker [w] does in an execution. *)
Definition project (w : thread_id) (es : list (thread_id * access)) : list access :=
  map snd (List.filter (fun e => Nat.eqb (fst e) w) es).

Definition range (n : Z) : list Z := map Z.of_nat (seq 0 (Z.to_nat n)).

(** "every thread coordinate within blockDim". *)
Definition coordinates_within (d : dim3) : list dim3 :=
  flat_map (fun k =>
    flat_map (fun j =>
      map (fun i => {| x := i; y := j; z := k |}) (range (x d)))
      (range (y d)))
    (range (z d)).

(** One run of the body of [s] between two barriers: the scheduler binds
    the thread index and resumes the body, which issues its emulated
    atomics, reading each back at once. *)
Definition segment (s : simulated_thread) (atomics : list (scratch_cell * Z))
  : list access :=
  Bind (at_thread s) :: Resume s
  :: flat_map (fun cv => [AtomicIssue (fst cv) (snd cv);
                          AtomicRead (fst cv) (snd cv)]) atomics.

(** The kernel body is opaque: [kernel s r] are the emulated atomics that
    the simulated thread [s] issues in its run number [r]. *)
Definition round (kernel : simulated_thread -> nat -> list (scratch_cell * Z))
    (block : dim3) (b : dim3) (r : nat) : list access :=
  flat_map (fun t => segment {| in_block := b; at_thread := t |}
                       (kernel {| in_block := b; at_thread := t |} r))
    (coordinates_within block).

(** A block of a kernel with [barriers] barriers: the block index is set,
    then every thread runs [barriers + 1] times. *)
Definition run_block (kernel : simulated_thread -> nat -> list (scratch_cell * Z))
    (block : dim3) (barriers : nat) (b : dim3) : list access :=
  SetBlock b :: flat_map (round kernel block b) (seq 0 (S barriers)).

(** A worker processes its blocks one after the other. *)
Definition worker_program
    (kernel : simulated_thread -> nat -> list (scratch_cell * Z))
    (block : dim3) (barriers : nat) (blocks : list dim3) : list access :=
  flat_map (run_block kernel block barriers) blocks.

(** [es] is an execution of the launch in which worker [w] processes the
    blocks [blocks_on w]: an interleaving of the workers' programs. *)
Definition schedule_of
    (kernel : simulated_thread -> nat -> list (scratch_cell * Z))
    (block : dim3) (barriers : nat) (blocks_on : thread_id -> list dim3)
    (es : list (thread_id * access)) : Prop :=
  forall w, project w es = worker_program kernel block barriers (blocks_on w).

(** Initialization sets the worker count, a launch the two dimensions, each
    once, on the thread [t] that calls. *)
Definition initialize (t : thread_id) (n : N) (m : memory) : memory :=
  store n_workers t n m.

Definition launch (t : thread_id) (grid block : dim3) (m : memory) : memory :=
  store blockDim t block (store gridDim t grid m).

(** A read gave the reader its own values: the resumed thread saw its own
    thread and block index and the dimensions and worker count that were
    set; a scratch cell gave back what the reader's atomic had left. *)
Definition own (n : N) (grid block : dim3) (e : seen) : Prop :=
  match e with
  | SawRegisters s r =>
      seen_threadIdx r = at_thread s
      /\ seen_blockIdx r = in_block s
      /\ seen_blockDim r = block
      /\ seen_gridDim r = grid
      /\ seen_n_workers r = n
  | SawScratch _ issued got => got = issued
  end.

(** The same accesses as one worker sees them, on its own instance of the
    thread-local variables. *)
Definition perform_local (a : access) (l : thread_locals) : thread_locals :=
  match a with
  | SetBlock b =>
      {| tl_threadIdx := tl_threadIdx l; tl_blockIdx := b;
         tl_vct_atomic_add := tl_vct_atomic_add l;
         tl_vct_atomic_rem := tl_vct_atomic_rem l |}
  | Bind t =>
      {| tl_threadIdx := t; tl_blockIdx := tl_blockIdx l;
         tl_vct_atomic_add := tl_vct_atomic_add l;
         tl_vct_atomic_rem := tl_vct_atomic_rem l |}
  | AtomicIssue cell_add v =>
      {| tl_threadIdx := tl_threadIdx l; tl_blockIdx := tl_blockIdx l;
         tl_vct_atomic_add := v;
         tl_vct_atomic_rem := tl_vct_atomic_rem l |}
  | AtomicIssue cell_rem v =>
      {| tl_threadIdx := tl_threadIdx l; tl_blockIdx := tl_blockIdx l;
         tl_vct_atomic_add := tl_vct_atomic_add l;
         tl_vct_atomic_rem := v |}
  | Resume _ | AtomicRead _ _ => l
  end.

Definition observed_local (g : globals) (a : access) (l : thread_locals)
  : list seen :=
  match a with
  | Resume s =>
      [SawRegisters s
         {| seen_threadIdx := tl_threadIdx l; seen_blockIdx := tl_blockIdx l;
            seen_blockDim := g_blockDim g; seen_gridDim := g_gridDim g;
            seen_n_workers := g_n_workers g |}]
  | AtomicRead c v =>
      [SawScratch c v (match c with
                       | cell_add => tl_vct_atomic_add l
                       | cell_rem => tl_vct_atomic_rem l
                       end)]
  | SetBlock _ | Bind _ | AtomicIssue _ _ => []
  end.

Fixpoint run_local (p : list access) (l : thread_locals) : thread_locals :=
  match p with
  | [] => l
  | a :: p => run_local p (perform_local a l)
  end.

Fixpoint trace_local (g : globals) (p : list access) (l : thread_locals)
  : list seen :=
  match p with
  | [] => []
  | a :: p => observed_local g a l ++ trace_local g p (perform_local a l)
  end.

End Storage.
End Cudify.

(** ** A small launch to run the scheduler on

    Two workers, a grid of two blocks of two threads each, one barrier; in
    its first run every thread adds its x coordinate atomically.  Worker 0
    processes block 0 and worker 1 block 1, taking turns access by
    access. *)
Module TestLaunch.

Definition origin : Cudify.dim3 := {| Cudify.x := 0; Cudify.y := 0; Cudify.z := 0 |}.

Definition two : Cudify.dim3 := {| Cudify.x := 2; Cudify.y := 1; Cudify.z := 1 |}.

Definition kernel (s : Cudify.simulated_thread) (r : nat)
  : list (Cudify.scratch_cell * Z) :=
  match r with
  | O => [(Cudify.cell_add, Cudify.x (Cudify.at_thread s))]
  | S _ => []
  end.

Definition blocks_on (w : Cudify.thread_id) : list Cudify.dim3 :=
  match w with
  | O => [{| Cudify.x := 0; Cudify.y := 0; Cudify.z := 0 |}]
  | S O => [{| Cudify.x := 1; Cudify.y := 0; Cudify.z := 0 |}]
  | S (S _) => []
  end.

Fixpoint take_turns {A} (l l' : list A) : list A :=
  match l, l' with
  | [], _ => l'
  | a :: l, [] => a :: l
  | a :: l, b :: l' => a :: b :: take_turns l l'
  end.

Definition execution : list (Cudify.thread_id * Cudify.access) :=
  take_turns
    (map (pair 0%nat) (Cudify.worker_program kernel two 1 (blocks_on 0%nat)))
    (map (pair 1%nat) (Cudify.worker_program kernel two 1 (blocks_on 1%nat))).

Definition launched : Cudify.memory :=
  Cudify.launch 0%nat two two
    (Cudify.initialize 0%nat 2 (Cudify.initial_memory origin)).

End TestLaunch.

(** * Properties *)

(** ** The log of a machine *)

Lemma skipn_length_app {A} (l l' : list A) : skipn (length l) (l ++ l') = l'.
Proof. induction l; simpl; auto. Qed.

Lemma skipn_length_self {A} (l : list A) : skipn (length l) l = [].
Proof. induction l; simpl; auto. Qed.

Section MachineFacts.

Context {W : Type}.
Implicit Types m : machine W.

Lemma after_nothing m : after m (world m) [] [] = m.
Proof. destruct m; unfold after; simpl; now rewrite !app_nil_r. Qed.

Lemma new_calls_after m w cs out : new_calls m (after m w cs out) = cs.
Proof. apply skipn_length_app. Qed.

Lemma new_output_after m w cs out : new_output m (after m w cs out) = out.
Proof. apply skipn_length_app. Qed.

Lemma new_calls_same m : new_calls m m = [].
Proof. apply skipn_length_self. Qed.

Lemma new_output_same m : new_output m m = [].
Proof. apply skipn_length_self. Qed.

Lemma native_after {A} (c : call) (f : W -> A * W) m :
  native c f m = (Returns (fst (f (world m))),
                  after m (snd (f (world m))) [c] []).
Proof.
  unfold native, after. destruct (f (world m)); simpl. now rewrite app_nil_r.
Qed.

Lemma print_after (s : string) m :
  print s m = (Returns tt, after m (world m) [] [s]).
Proof. unfold print, after. now rewrite app_nil_r. Qed.

Lemma world_after m w cs out : world (after m w cs out) = w.
Proof. reflexivity. Qed.

Lemma after_after m w cs out w' cs' out' :
  after (after m w cs out) w' cs' out' = after m w' (cs ++ cs') (out ++ out').
Proof. unfold after; simpl. now rewrite !app_assoc. Qed.

End MachineFacts.

(** Unfolds the monad and names what the runtime answered. *)
Ltac run :=
  unfold bind, ret, throw, undefined, read; cbn [fst snd negb andb];
  repeat (progress (rewrite ?native_after, ?print_after, ?after_after,
                      ?world_after;
                    cbn [fst snd app negb andb])).

(** ** The CPU variant degrades *)
Section StubFacts.

Context {W : Type}.
Variable FILE : string.
Implicit Types m : machine W.

Lemma not_implemented_after (LINE : nat) m :
  CudaOnCpu.not_implemented FILE LINE m
  = (Returns tt, after m (world m) [] (CudaOnCpu.diagnostic FILE LINE)).
Proof.
  unfold CudaOnCpu.not_implemented. run. reflexivity.
Qed.

End StubFacts.

(** ** Allocation *)
Section Alloc.

Context {W cudaDeviceProp : Type}.
Variable rt : cuda_runtime W cudaDeviceProp.
Variable FILE : string.

(** C1.  On the real-accelerator variant [alloc] of size 0 returns the null
    pointer, calls nothing and raises nothing; of a size above 0 it issues
    exactly one native call, [cudaMalloc] for the device space and
    [cudaMallocHost] otherwise, returns the pointer that call wrote when
    the call succeeds and throws the exception carrying the native status
    when it fails.  On the CPU variant [alloc] returns the null pointer for
    every size and space after printing its diagnostic, and never throws. *)
Theorem alloc_contract
    (this : @CudaGpu.ofp_context_t cudaDeviceProp)
    (stub : CudaOnCpu.ofp_context_t)
    (size : N) (space : memory_space_t) (m : machine W) :
  CudaGpu.alloc rt this 0 space m = (Returns nullptr, m)
  /\ (forall status (p : option pointer) w,
        size <> 0%N ->
        CudaGpu.native_alloc rt space size (world m) = (status, p, w) ->
        CudaGpu.alloc rt this size space m
        = (if status =? cudaSuccess then Returns (default nullptr p)
           else Throws {| result := status |},
           after m w [CudaGpu.alloc_call space size] []))
  /\ (forall space' : Z,
        CudaOnCpu.alloc FILE stub size space' m
        = (Returns nullptr, after m (world m) [] (CudaOnCpu.diagnostic FILE 70))).
Proof.
  split; [reflexivity | split].
  - intros status p w Hsize Hcall.
    unfold CudaGpu.alloc.
    destruct (N.eqb_spec size 0) as [E | _]; [contradiction |].
    cbn [negb].
    destruct space;
      cbn [memory_space_eqb CudaGpu.native_alloc CudaGpu.alloc_call] in *; run;
      rewrite Hcall; cbn [fst snd];
      rewrite (Z.eqb_sym cudaSuccess status);
      destruct (status =? cudaSuccess); destruct p; reflexivity.
  - intros space'. unfold CudaOnCpu.alloc. run.
    rewrite not_implemented_after. reflexivity.
Qed.

End Alloc.

(** On a machine with 4096 bytes, asking the device for 16 bytes returns the
    first free address through [cudaMalloc]; asking the host for 10000 bytes
    throws the status 2 of [cudaMallocHost]. *)
Lemma alloc_contract_witness :
  CudaGpu.alloc TestRuntime.runtime TestRuntime.gpu_context 16
    memory_space_device TestRuntime.one_device
  = (Returns 256%N,
     after TestRuntime.one_device
       (TestRuntime.upd_address 272 (world TestRuntime.one_device))
       [Malloc 16] [])
  /\ CudaGpu.alloc TestRuntime.runtime TestRuntime.gpu_context 10000
       memory_space_host TestRuntime.one_device
     = (Throws {| result := 2 |},
        after TestRuntime.one_device (world TestRuntime.one_device)
          [MallocHost 10000] []).
Proof.
  split.
  - apply (proj1 (proj2 (alloc_contract TestRuntime.runtime
                           TestRuntime.source_file TestRuntime.gpu_context
                           TestRuntime.cpu_context 16 memory_space_device
                           TestRuntime.one_device))
             0 (Some 256%N)); [discriminate | reflexivity].
  - apply (proj1 (proj2 (alloc_contract TestRuntime.runtime
                           TestRuntime.source_file TestRuntime.gpu_context
                           TestRuntime.cpu_context 10000 memory_space_host
                           TestRuntime.one_device))
             2 None); [discriminate | reflexivity].
Defined.

(** ** The operations of the CPU variant *)
Section StubOperations.

Context {W : Type}.
Variable FILE : string.

(** C2, as the code has it.  On the CPU variant [stream], [alloc], [free],
    [synchronize], [event], [timer_begin], [timer_end] and [getDevice]
    return their zero value (or nothing) after printing the diagnostic of
    their source line, touch nothing else and never throw; [props] and
    [ptx_version] return the stored string (empty after construction) and 0
    and print nothing. *)
Theorem stub_operations_degrade
    (this : CudaOnCpu.ofp_context_t) (m : machine W)
    (size : N) (p : pointer) (space : Z) :
  CudaOnCpu.degrades_at FILE 63 (CudaOnCpu.stream FILE this) 0 m
  /\ CudaOnCpu.degrades_at FILE 70 (CudaOnCpu.alloc FILE this size space) nullptr m
  /\ CudaOnCpu.degrades_at FILE 76 (CudaOnCpu.free FILE this p space) tt m
  /\ CudaOnCpu.degrades_at FILE 81 (CudaOnCpu.synchronize FILE this) tt m
  /\ CudaOnCpu.degrades_at FILE 86 (CudaOnCpu.event FILE this) 0 m
  /\ CudaOnCpu.degrades_at FILE 92 (CudaOnCpu.timer_begin FILE this) tt m
  /\ CudaOnCpu.degrades_at FILE 97 (CudaOnCpu.timer_end FILE this) 0%float m
  /\ CudaOnCpu.degrades_at FILE 103 (CudaOnCpu.getDevice FILE this) 0 m
  /\ CudaOnCpu.silent_at (CudaOnCpu.props this) (CudaOnCpu._props this) m
  /\ CudaOnCpu.silent_at (CudaOnCpu.ptx_version this) 0 m
  /\ (forall opt dev_num stream_,
        exists c, CudaOnCpu.ofp_context_t_ctor opt dev_num stream_ m = (Returns c, m)
                  /\ CudaOnCpu._props c = "").
Proof.
  unfold CudaOnCpu.degrades_at, CudaOnCpu.silent_at,
    CudaOnCpu.stream, CudaOnCpu.alloc, CudaOnCpu.free, CudaOnCpu.synchronize,
    CudaOnCpu.event, CudaOnCpu.timer_begin, CudaOnCpu.timer_end,
    CudaOnCpu.getDevice.
  repeat split;
    try (run; rewrite ?not_implemented_after; reflexivity).
  intros. eexists. split; reflexivity.
Qed.

End StubOperations.

(** C2, as the specification states it, fails: on a freshly booted machine
    [ptx_version] of the CPU variant prints no diagnostic. *)
Lemma stub_ptx_version_prints_nothing :
  ~ CudaOnCpu.emits_diagnostic TestRuntime.source_file
      (CudaOnCpu.ptx_version TestRuntime.cpu_context)
      (TestRuntime.boot 0 false).
Proof.
  intros (v & LINE & H). unfold CudaOnCpu.degrades_at in H.
  inversion H.
Qed.

(** ** What each variant declares *)
Section Capabilities.

Context {W cudaDeviceProp : Type}.
Variable rt : cuda_runtime W cudaDeviceProp.
Variable FILE : string.

(** C3, as the code has it.  The real-accelerator variant declares the
    whole capability set, three scratch vectors as members of the context
    and three accessors, each a reference to its own member: what is
    assigned through one is read back through it and leaves the other two
    vectors as they were.  The CPU variant declares the capability set
    without [getNDevice], one scratch vector and no accessor; the variant
    without CUDA declares none of them. *)
Theorem capability_sets :
  full_capability_set rt FILE RealAccelerator
  /\ (forall (c : @CudaGpu.ofp_context_t cudaDeviceProp) (v : byte_vector),
        deref CudaGpu.getTemporalCUB c = CudaGpu.tmem c
        /\ deref CudaGpu.getTemporalCUB2 c = CudaGpu.tmem2 c
        /\ deref CudaGpu.getTemporalCUB3 c = CudaGpu.tmem3 c
        /\ (let c' := assign CudaGpu.getTemporalCUB v c in
            CudaGpu.tmem c' = v
            /\ CudaGpu.tmem2 c' = CudaGpu.tmem2 c
            /\ CudaGpu.tmem3 c' = CudaGpu.tmem3 c)
        /\ (let c' := assign CudaGpu.getTemporalCUB2 v c in
            CudaGpu.tmem c' = CudaGpu.tmem c
            /\ CudaGpu.tmem2 c' = v
            /\ CudaGpu.tmem3 c' = CudaGpu.tmem3 c)
        /\ (let c' := assign CudaGpu.getTemporalCUB3 v c in
            CudaGpu.tmem c' = CudaGpu.tmem c
            /\ CudaGpu.tmem2 c' = CudaGpu.tmem2 c
            /\ CudaGpu.tmem3 c' = v))
  /\ map name_of (public_members rt FILE CpuStub)
     = [cap_props; cap_ptx_version; cap_stream; cap_alloc; cap_free;
        cap_synchronize; cap_event; cap_timer_begin; cap_timer_end;
        cap_getDevice]
  /\ map name_of (scratch_buffers (cudaDeviceProp := cudaDeviceProp) CpuStub)
     = [buf_tmem]
  /\ public_members rt FILE Disabled = []
  /\ scratch_buffers (cudaDeviceProp := cudaDeviceProp) Disabled = [].
Proof.
  split; [repeat split |].
  split; [intros c v; repeat split |].
  repeat split.
Qed.

End Capabilities.

(** C3, as the specification states it, fails: the CPU variant has no
    [getNDevice], no accessor and a single scratch vector. *)
Lemma cpu_variant_lacks_capabilities :
  ~ full_capability_set TestRuntime.runtime TestRuntime.source_file CpuStub.
Proof.
  intros (H & _). vm_compute in H. discriminate H.
Qed.

(** ** Construction and destruction on the real-accelerator variant *)
Section Construction.

Context {W cudaDeviceProp : Type}.
Variable rt : cuda_runtime W cudaDeviceProp.
Variable NVCC : bool.
Variable device_prop_string : indet cudaDeviceProp -> string.
Implicit Types (m : machine W) (this : @CudaGpu.ofp_context_t cudaDeviceProp).

Lemma init_throws dev_num opt this m :
  CudaGpu.ptx_query_fails rt NVCC (world m) = true ->
  CudaGpu.init rt NVCC dev_num opt this m
  = (Throws {| result := CudaGpu.ptx_query_status rt NVCC (world m) |},
     after m (CudaGpu.world_at_count rt NVCC (world m)) [FuncGetAttributes] []).
Proof.
  unfold CudaGpu.ptx_query_fails, CudaGpu.ptx_query_status,
    CudaGpu.world_at_count, CudaGpu.init.
  destruct NVCC; [| discriminate].
  intros H. run.
  destruct (cudaFuncGetAttributes rt (world m)) as [[r attr] w]; cbn [fst snd] in *.
  now rewrite H.
Qed.

(** Unfolds the vocabulary of the prologue. *)
Ltac prologue :=
  unfold CudaGpu.devices_reported, CudaGpu.world_after_count,
    CudaGpu.ptx_query_fails, CudaGpu.ptx_query_status,
    CudaGpu.world_at_count, CudaGpu.prologue_calls,
    CudaGpu.ptx_version_found in *.

(** Names the answer of every runtime call the goal is stuck on. *)
Ltac answer :=
  repeat first
    [ progress run
    | match goal with
      | |- context [fst ?t] =>
          lazymatch type of t with
          | (_ * W)%type => destruct t as [? ?]
          end
      | |- context [snd ?t] =>
          lazymatch type of t with
          | (_ * W)%type => destruct t as [? ?]
          end
      end;
      repeat match goal with
        | x : (_ * _)%type |- _ => destruct x as [? ?]
        end;
      cbn [fst snd] ].

Lemma init_no_device dev_num opt this m :
  CudaGpu.ptx_query_fails rt NVCC (world m) = false ->
  CudaGpu.devices_reported rt NVCC (world m) = Some 0 ->
  CudaGpu.init rt NVCC dev_num opt this m
  = (Returns (CudaGpu.set_ptx_version
                (Some (CudaGpu.ptx_version_found rt NVCC (world m))) this),
     after m (CudaGpu.world_after_count rt NVCC (world m))
       (CudaGpu.prologue_calls NVCC ++ [GetDeviceCount]) []).
Proof.
  prologue. unfold CudaGpu.init.
  destruct NVCC; run.
  - destruct (cudaFuncGetAttributes rt (world m)) as [[r attr] w]; cbn [fst snd].
    intros Hq. apply negb_false_iff in Hq. rewrite Hq. run.
    destruct (cudaGetDeviceCount rt w) as [[e n] w']; cbn [fst snd].
    intros ->. reflexivity.
  - intros _.
    destruct (cudaGetDeviceCount rt (world m)) as [[e n] w']; cbn [fst snd].
    intros ->. reflexivity.
Qed.

Lemma init_some_device dev_num opt this m n :
  CudaGpu.ptx_query_fails rt NVCC (world m) = false ->
  CudaGpu.devices_reported rt NVCC (world m) = Some n ->
  0 < n ->
  exists this' w ord,
    CudaGpu.init rt NVCC dev_num opt this m
    = (Returns this',
       after m w
         (CudaGpu.prologue_calls NVCC ++ [GetDeviceCount]
          ++ (if gpu_context_opt_eqb opt dummy then []
              else [SetDevice (Z.rem dev_num n)])
          ++ [GetDevice; GetDeviceProperties ord;
              EventCreate; EventCreate; EventCreate]) []).
Proof.
  prologue. unfold CudaGpu.init.
  intros Hq Hn Hpos. revert Hq Hn.
  assert (En : (n =? 0) = false) by (apply Z.eqb_neq; lia).
  assert (En1 : (n =? -1) = false) by (apply Z.eqb_neq; lia).
  destruct NVCC; run.
  - destruct (cudaFuncGetAttributes rt (world m)) as [[r attr] w]; cbn [fst snd].
    intros Hq. apply negb_false_iff in Hq. rewrite Hq. run.
    destruct (cudaGetDeviceCount rt w) as [[e k] w']; cbn [fst snd].
    intros ->. run. rewrite En.
    destruct (gpu_context_opt_eqb opt dummy); cbn [negb]; rewrite ?En1;
      cbn [andb]; answer; run; do 3 eexists; reflexivity.
  - intros _.
    destruct (cudaGetDeviceCount rt (world m)) as [[e k] w']; cbn [fst snd].
    intros ->. run. rewrite En.
    destruct (gpu_context_opt_eqb opt dummy); cbn [negb]; rewrite ?En1;
      cbn [andb]; answer; run; do 3 eexists; reflexivity.
Qed.

(** [init] prints nothing: it only talks to the runtime. *)
Lemma init_quiet dev_num opt this m :
  exists w cs,
    snd (CudaGpu.init rt NVCC dev_num opt this m) = after m w cs [].
Proof.
  unfold CudaGpu.init.
  destruct NVCC; answer;
    repeat (match goal with
            | |- context [if ?b then _ else _] => destruct b
            | |- context [match ?o with Some _ => _ | None => _ end] => destruct o
            end; answer);
    do 2 eexists; reflexivity.
Qed.

(** The constructor is [init] followed by the optional line of properties. *)
Lemma ctor_after_init opt dev_num stream_ m :
  CudaGpu.ofp_context_t_ctor rt NVCC device_prop_string opt dev_num stream_ m
  = match CudaGpu.init rt NVCC dev_num opt (CudaGpu.uninitialized stream_) m with
    | (Returns this, m1) =>
        (Returns this,
         after m1 (world m1) [] (CudaGpu.props_line device_prop_string opt this))
    | (Throws e, m1) => (Throws e, m1)
    | (Undefined, m1) => (Undefined, m1)
    end.
Proof.
  unfold CudaGpu.ofp_context_t_ctor, CudaGpu.props_line, bind.
  destruct (CudaGpu.init rt NVCC dev_num opt (CudaGpu.uninitialized stream_) m)
    as [[this | e |] m1]; try reflexivity.
  destruct (gpu_context_opt_eqb opt print_props); run; try reflexivity.
  now rewrite after_nothing.
Qed.

Lemma dtor_calls this m :
  CudaGpu.ofp_context_t_dtor rt this m
  = (Returns tt,
     after m (snd (CudaGpu.ofp_context_t_dtor rt this m)).(world)
       [EventDestroy (fst (CudaGpu._timer this));
        EventDestroy (snd (CudaGpu._timer this));
        EventDestroy (CudaGpu._event this)] []).
Proof.
  unfold CudaGpu.ofp_context_t_dtor. answer. reflexivity.
Qed.

Lemma set_device_calls_of_init NVCC' (b : bool) (d : Z) (ord : indet Z) :
  List.filter is_set_device_call
    (CudaGpu.prologue_calls NVCC' ++ [GetDeviceCount]
     ++ (if b then [] else [SetDevice d])
     ++ [GetDevice; GetDeviceProperties ord; EventCreate; EventCreate; EventCreate])
  = if b then [] else [SetDevice d].
Proof. destruct NVCC', b; reflexivity. Qed.

(** C4, as the code has it.  When compiled by NVCC, a failing query of the
    PTX version makes construction throw the native status.  Otherwise,
    when the runtime reports [n] devices: with [n > 0] and an option other
    than [dummy] construction selects exactly one device, [dev_num % n]
    (which is [dev_num mod n] for a non-negative [dev_num]); with [dummy]
    it selects none; with [n = 0] it returns normally after the device
    count, with only the PTX version and the stream assigned.  [getDevice]
    and [getNDevice] never throw: the former returns 0 unless the runtime
    writes a device, the latter what the runtime counts. *)
Theorem construction_selects_device opt dev_num stream_ m :
  let r := CudaGpu.ofp_context_t_ctor rt NVCC device_prop_string
             opt dev_num stream_ m in
  (CudaGpu.ptx_query_fails rt NVCC (world m) = true ->
   fst r = Throws {| result := CudaGpu.ptx_query_status rt NVCC (world m) |})
  /\ (forall n,
        CudaGpu.ptx_query_fails rt NVCC (world m) = false ->
        CudaGpu.devices_reported rt NVCC (world m) = Some n ->
        0 <= n ->
        returns_normally r = true
        /\ (0 < n -> opt <> dummy ->
              List.filter is_set_device_call (new_calls m (snd r))
              = [SetDevice (Z.rem dev_num n)]
              /\ (0 <= dev_num ->
                    Z.rem dev_num n = dev_num mod n /\ 0 <= dev_num mod n < n))
        /\ (opt = dummy ->
              List.filter is_set_device_call (new_calls m (snd r)) = [])
        /\ (n = 0 ->
              fst r = Returns (CudaGpu.set_ptx_version
                                 (Some (CudaGpu.ptx_version_found rt NVCC (world m)))
                                 (CudaGpu.uninitialized stream_))
              /\ new_calls m (snd r)
                  = CudaGpu.prologue_calls NVCC ++ [GetDeviceCount]))
  /\ (forall this m',
        returns_normally (CudaGpu.getDevice rt this m') = true
        /\ returns_normally (CudaGpu.getNDevice rt this m') = true
        /\ (snd (fst (cudaGetDevice rt (world m'))) = None ->
              fst (CudaGpu.getDevice rt this m') = Returns 0)
        /\ fst (CudaGpu.getNDevice rt this m')
            = Returns (snd (fst (cudaGetDeviceCount rt (world m'))))).
Proof.
  cbv zeta. rewrite ctor_after_init. split; [| split].
  - intros Hq. now rewrite init_throws.
  - intros n Hq Hn Hn0.
    destruct (Z.eq_dec n 0) as [-> | Hne].
    + rewrite (init_no_device _ _ _ _ Hq Hn). cbn [fst snd].
      rewrite after_after, new_calls_after, app_nil_r.
      repeat split; try lia; try reflexivity.
      intros _. destruct NVCC; reflexivity.
    + destruct (init_some_device dev_num opt (CudaGpu.uninitialized stream_)
                  m n Hq Hn ltac:(lia)) as (this' & w & ord & ->).
      cbn [fst snd].
      rewrite after_after, new_calls_after, app_nil_r,
        set_device_calls_of_init.
      repeat split; try lia; try reflexivity.
      * destruct opt; try reflexivity. congruence.
      * now apply Z.rem_mod_nonneg.
      * apply Z.mod_pos_bound; lia.
      * apply Z.mod_pos_bound; lia.
      * intros ->. reflexivity.
  - intros this m'. unfold CudaGpu.getDevice, CudaGpu.getNDevice. run.
    destruct (cudaGetDevice rt (world m')) as [[e d] w];
      destruct (cudaGetDeviceCount rt (world m')) as [[e' k] w'];
      cbn [fst snd].
    repeat split. now intros ->.
Qed.

(** C9.  The destructor always issues the three [cudaEventDestroy] calls,
    on [_timer[0]], [_timer[1]] and [_event].  When the runtime reports no
    device to [init], construction returns without a single creating call
    and leaves the properties and the three handles unassigned, so the
    three destroy calls of the destructor are handed handles that were
    never created. *)
Theorem destroy_without_create opt dev_num stream_ m :
  (forall this m',
     new_calls m' (snd (CudaGpu.ofp_context_t_dtor rt this m'))
     = [EventDestroy (fst (CudaGpu._timer this));
        EventDestroy (snd (CudaGpu._timer this));
        EventDestroy (CudaGpu._event this)])
  /\ (CudaGpu.ptx_query_fails rt NVCC (world m) = false ->
      CudaGpu.devices_reported rt NVCC (world m) = Some 0 ->
      exists this m1,
        CudaGpu.ofp_context_t_ctor rt NVCC device_prop_string
          opt dev_num stream_ m = (Returns this, m1)
        /\ List.filter is_create_call (new_calls m m1) = []
        /\ CudaGpu._props this = None
        /\ CudaGpu._timer this = (None, None)
        /\ CudaGpu._event this = None
        /\ forall m',
             new_calls m' (snd (CudaGpu.ofp_context_t_dtor rt this m'))
             = [EventDestroy None; EventDestroy None; EventDestroy None]).
Proof.
  assert (D : forall this m',
             new_calls m' (snd (CudaGpu.ofp_context_t_dtor rt this m'))
             = [EventDestroy (fst (CudaGpu._timer this));
                EventDestroy (snd (CudaGpu._timer this));
                EventDestroy (CudaGpu._event this)]).
  { intros this m'. rewrite dtor_calls. cbn [snd]. apply new_calls_after. }
  split; [exact D |].
  intros Hq Hn. rewrite ctor_after_init, (init_no_device _ _ _ _ Hq Hn).
  do 2 eexists. split; [reflexivity |].
  rewrite after_after, new_calls_after, app_nil_r.
  repeat split.
  - destruct NVCC; reflexivity.
  - intros m'. now rewrite D.
Qed.

End Construction.

(** With two devices, constructing for device number 5 selects device 1. *)
Lemma construction_selects_device_witness :
  returns_normally
    (CudaGpu.ofp_context_t_ctor TestRuntime.runtime true TestRuntime.show_props
       no_print_props 5 0%N TestRuntime.two_devices) = true
  /\ List.filter is_set_device_call
       (new_calls TestRuntime.two_devices
          (snd (CudaGpu.ofp_context_t_ctor TestRuntime.runtime true
                  TestRuntime.show_props no_print_props 5 0%N
                  TestRuntime.two_devices)))
     = [SetDevice 1].
Proof.
  destruct (proj1 (proj2 (construction_selects_device TestRuntime.runtime true
                            TestRuntime.show_props no_print_props 5 0%N
                            TestRuntime.two_devices))
              2 eq_refl eq_refl ltac:(lia)) as (H1 & H2 & _).
  split; [exact H1 |].
  destruct (H2 ltac:(lia) ltac:(discriminate)) as [H _]. exact H.
Defined.

(** C4, as the specification states it, fails: compiled by NVCC on a machine
    without devices whose driver rejects the PTX query, construction
    throws. *)
Lemma construction_throws_without_driver :
  TestRuntime.devices (world TestRuntime.no_driver) = 0
  /\ ~ returns_normally
        (CudaGpu.ofp_context_t_ctor TestRuntime.runtime true
           TestRuntime.show_props no_print_props 0 0%N TestRuntime.no_driver)
      = true.
Proof. split; [reflexivity | vm_compute; discriminate]. Qed.

(** Without devices the constructed context is destroyed through three
    handles that were never created. *)
Lemma destroy_without_create_witness :
  exists this m1,
    CudaGpu.ofp_context_t_ctor TestRuntime.runtime true TestRuntime.show_props
      no_print_props 0 0%N TestRuntime.no_device = (Returns this, m1)
    /\ List.filter is_create_call (new_calls TestRuntime.no_device m1) = []
    /\ CudaGpu._props this = None
    /\ CudaGpu._timer this = (None, None)
    /\ CudaGpu._event this = None
    /\ forall m',
         new_calls m' (snd (CudaGpu.ofp_context_t_dtor TestRuntime.runtime this m'))
         = [EventDestroy None; EventDestroy None; EventDestroy None].
Proof.
  apply (proj2 (destroy_without_create TestRuntime.runtime true
                  TestRuntime.show_props no_print_props 0 0%N
                  TestRuntime.no_device)); reflexivity.
Defined.

(** ** Timing *)
Section Timer.

Context {W cudaDeviceProp : Type}.
Variable rt : cuda_runtime W cudaDeviceProp.
Variable FILE : string.

(** C5.  [timer_begin] records [_timer[0]] on the stream.  [timer_end]
    records and awaits [_timer[1]], asks the runtime for the time elapsed
    from [_timer[0]] to [_timer[1]] and returns that measurement, which is
    in milliseconds, divided by 1000: seconds.  On the CPU variant
    [timer_end] returns 0 after its diagnostic on every machine, so also
    where no [timer_begin] preceded it. *)
Theorem timer_end_seconds
    (this : @CudaGpu.ofp_context_t cudaDeviceProp)
    (stub : CudaOnCpu.ofp_context_t) (m : machine W) :
  CudaGpu.timer_begin rt this m
  = (Returns tt,
     after m (snd (cudaEventRecord rt (fst (CudaGpu._timer this))
                     (CudaGpu._stream this) (world m)))
       [EventRecord (fst (CudaGpu._timer this)) (CudaGpu._stream this)] [])
  /\ (forall e1 w1 e2 w2 e3 (ms : float) w3,
        cudaEventRecord rt (snd (CudaGpu._timer this)) (CudaGpu._stream this)
          (world m) = (e1, w1) ->
        cudaEventSynchronize rt (snd (CudaGpu._timer this)) w1 = (e2, w2) ->
        cudaEventElapsedTime rt (fst (CudaGpu._timer this))
          (snd (CudaGpu._timer this)) w2 = (e3, Some ms, w3) ->
        CudaGpu.timer_end rt this m
        = (Returns (ms / 1000)%float,
           after m w3
             [EventRecord (snd (CudaGpu._timer this)) (CudaGpu._stream this);
              EventSynchronize (snd (CudaGpu._timer this));
              EventElapsedTime (fst (CudaGpu._timer this))
                (snd (CudaGpu._timer this))] []))
  /\ CudaOnCpu.degrades_at FILE 97 (CudaOnCpu.timer_end FILE stub) 0%float m.
Proof.
  split; [| split].
  - unfold CudaGpu.timer_begin. run. reflexivity.
  - intros e1 w1 e2 w2 e3 ms w3 H1 H2 H3.
    unfold CudaGpu.timer_end. run. rewrite H1. cbn [fst snd].
    rewrite H2. cbn [fst snd]. rewrite H3. run. reflexivity.
  - unfold CudaOnCpu.degrades_at, CudaOnCpu.timer_end. run.
    rewrite not_implemented_after. reflexivity.
Qed.

End Timer.

(** Events recorded 250 ms apart measure a quarter of a second. *)
Lemma timer_end_seconds_witness :
  fst (CudaGpu.timer_end TestRuntime.runtime TestRuntime.timed_context
         (snd (CudaGpu.timer_begin TestRuntime.runtime TestRuntime.timed_context
                 TestRuntime.one_device)))
  = Returns 0.25%float.
Proof.
  rewrite (proj1 (proj2 (timer_end_seconds TestRuntime.runtime
                           TestRuntime.source_file TestRuntime.timed_context
                           TestRuntime.cpu_context
                           (snd (CudaGpu.timer_begin TestRuntime.runtime
                                   TestRuntime.timed_context
                                   TestRuntime.one_device))))
             _ _ _ _ _ 250%float _ eq_refl eq_refl eq_refl).
  reflexivity.
Defined.

(** ** Release *)
Section Free.

Context {W cudaDeviceProp : Type}.
Variable rt : cuda_runtime W cudaDeviceProp.
Variable FILE : string.

(** C6.  In every variant that has [free], freeing the null pointer returns
    normally, issues no runtime call and leaves the runtime as it was; on
    the real-accelerator variant it changes nothing at all.  There, freeing
    a non-null pointer issues exactly one native call, [cudaFree] for the
    device space and [cudaFreeHost] otherwise, and throws the exception
    carrying the native status when that call fails. *)
Theorem free_contract
    (c : @context cudaDeviceProp)
    (this : @CudaGpu.ofp_context_t cudaDeviceProp)
    (p : pointer) (space : memory_space_t) (m : machine W) :
  (forall f, free_of rt FILE c = Some f ->
             returns_normally (f nullptr space m) = true
             /\ world (snd (f nullptr space m)) = world m
             /\ calls (snd (f nullptr space m)) = calls m)
  /\ CudaGpu.free rt this nullptr space m = (Returns tt, m)
  /\ (forall status w,
        p <> nullptr ->
        CudaGpu.native_free rt space p (world m) = (status, w) ->
        CudaGpu.free rt this p space m
        = (if status =? cudaSuccess then Returns tt
           else Throws {| result := status |},
           after m w [CudaGpu.free_call space p] [])).
Proof.
  split; [| split; [reflexivity |]].
  - intros f Hf. destruct c as [g | s | d]; cbn in Hf; inversion Hf; subst f.
    + repeat split.
    + unfold CudaOnCpu.free. rewrite not_implemented_after.
      repeat split. cbn. apply app_nil_r.
  - intros status w Hp Hcall. unfold CudaGpu.free.
    destruct (N.eqb_spec p nullptr) as [E | _]; [contradiction |].
    cbn [negb].
    destruct space;
      cbn [memory_space_eqb CudaGpu.native_free CudaGpu.free_call] in *; run;
      rewrite Hcall; cbn [fst snd];
      rewrite (Z.eqb_sym cudaSuccess status);
      destruct (status =? cudaSuccess); reflexivity.
Qed.

End Free.

(** Freeing null on the CPU variant releases nothing; on the real variant a
    device address that was handed out is released through [cudaFree], and
    a host address that never was makes [cudaFreeHost] fail with status 1,
    which is thrown. *)
Lemma free_contract_witness :
  calls (snd (CudaOnCpu.free TestRuntime.source_file TestRuntime.cpu_context
                nullptr (memory_space_to_int memory_space_device)
                TestRuntime.one_device)) = []
  /\ CudaGpu.free TestRuntime.runtime TestRuntime.gpu_context 100%N
       memory_space_device TestRuntime.one_device
     = (Returns tt,
        after TestRuntime.one_device (world TestRuntime.one_device)
          [Free 100%N] [])
  /\ CudaGpu.free TestRuntime.runtime TestRuntime.gpu_context 300%N
       memory_space_host TestRuntime.one_device
     = (Throws {| result := 1 |},
        after TestRuntime.one_device (world TestRuntime.one_device)
          [FreeHost 300%N] []).
Proof.
  split; [| split].
  - apply (proj1 (free_contract TestRuntime.runtime TestRuntime.source_file
                    (StubCtx TestRuntime.cpu_context) TestRuntime.gpu_context
                    100%N memory_space_device TestRuntime.one_device)
             _ eq_refl).
  - apply (proj2 (proj2 (free_contract TestRuntime.runtime
                           TestRuntime.source_file
                           (StubCtx TestRuntime.cpu_context)
                           TestRuntime.gpu_context 100%N memory_space_device
                           TestRuntime.one_device))
             0 (world TestRuntime.one_device)); [discriminate | reflexivity].
  - apply (proj2 (proj2 (free_contract TestRuntime.runtime
                           TestRuntime.source_file
                           (StubCtx TestRuntime.cpu_context)
                           TestRuntime.gpu_context 300%N memory_space_host
                           TestRuntime.one_device))
             1 (world TestRuntime.one_device)); [discriminate | reflexivity].
Defined.

(** ** What construction prints *)
Section ConstructionOutput.

Context {W cudaDeviceProp : Type}.
Variable rt : cuda_runtime W cudaDeviceProp.
Variable NVCC : bool.
Variable device_prop_string : indet cudaDeviceProp -> string.
Variable FILE : string.

(** C7, as the code has it.  On the real-accelerator variant a
    construction that returns prints one line, the device properties,
    when the option is [print_props] and nothing for the other two
    options; a construction that does not return prints nothing.  On the
    other two variants construction returns and prints nothing, whatever
    the option. *)
Theorem construction_output
    (b : backend) (opt : gpu_context_opt) (dev_num : Z) (stream_ : N)
    (m : machine W) :
  let r := construct rt NVCC device_prop_string b opt dev_num stream_ m in
  new_output m (snd r)
  = match b, fst r with
    | RealAccelerator, Returns (RealCtx this) =>
        match opt with
        | print_props =>
            [(device_prop_string (CudaGpu._props this) ++ endl)%string]
        | no_print_props | dummy => []
        end
    | _, _ => []
    end
  /\ match b with
     | RealAccelerator => True
     | CpuStub | Disabled => returns_normally r = true
     end.
Proof.
  cbv zeta. destruct b; cbn [construct].
  - split; [| exact I].
    unfold bind. rewrite ctor_after_init.
    destruct (init_quiet rt NVCC dev_num opt (CudaGpu.uninitialized stream_) m)
      as (w & cs & Hm).
    destruct (CudaGpu.init rt NVCC dev_num opt (CudaGpu.uninitialized stream_) m)
      as [[this | e |] m1]; cbn [fst snd] in *; subst m1;
      rewrite ?after_after, ?new_output_after; try reflexivity.
    unfold ret; cbn [fst snd]. rewrite new_output_after.
    destruct opt; reflexivity.
  - split; [| reflexivity]. cbn. apply new_output_same.
  - split; [| reflexivity]. cbn. apply new_output_same.
Qed.

End ConstructionOutput.

(** C7, as the specification states it, fails: the CPU variant constructed
    with [print_props] prints nothing. *)
Lemma cpu_construction_prints_nothing :
  ~ prints_something TestRuntime.one_device
      (snd (construct TestRuntime.runtime true TestRuntime.show_props
              CpuStub print_props 0 0%N TestRuntime.one_device)).
Proof. intros H. apply H. reflexivity. Qed.

(** ** Storage of the emulation variables *)
Section StorageFacts.

Variable dim3_default : Cudify.dim3.

Lemma thread_local_private {A} (get : Cudify.thread_locals -> A)
    (set : A -> Cudify.thread_locals -> Cudify.thread_locals) :
  (forall a s, get (set a s) = a) ->
  Cudify.private_to_threads (Cudify.thread_local dim3_default get set).
Proof.
  intros Hget t u a m. unfold Cudify.thread_local, Cudify.instance; cbn.
  split.
  - rewrite lookup_insert_eq. cbn. apply Hget.
  - intros Htu. now rewrite lookup_insert_ne.
Qed.

Lemma process_wide_shared {A} (get : Cudify.globals -> A)
    (set : A -> Cudify.globals -> Cudify.globals) :
  (forall a s, get (set a s) = a) ->
  Cudify.shared_by_threads (Cudify.process_wide get set).
Proof. intros Hget t u a m. cbn. apply Hget. Qed.

(** *** Workers do not disturb one another *)

Lemma instance_store_same {A} (get : Cudify.thread_locals -> A)
    (set : A -> Cudify.thread_locals -> Cudify.thread_locals) w a m :
  Cudify.instance dim3_default w
    (Cudify.store (Cudify.thread_local dim3_default get set) w a m)
  = set a (Cudify.instance dim3_default w m).
Proof. unfold Cudify.instance; cbn. now rewrite lookup_insert_eq. Qed.

Lemma instance_store_other {A} (get : Cudify.thread_locals -> A)
    (set : A -> Cudify.thread_locals -> Cudify.thread_locals) w u a m :
  w <> u ->
  Cudify.instance dim3_default u
    (Cudify.store (Cudify.thread_local dim3_default get set) w a m)
  = Cudify.instance dim3_default u m.
Proof. intros H. unfold Cudify.instance; cbn. now rewrite lookup_insert_ne. Qed.

Lemma instance_perform_same w a m :
  Cudify.instance dim3_default w (Cudify.perform dim3_default w a m)
  = Cudify.perform_local a (Cudify.instance dim3_default w m).
Proof.
  destruct a as [b | t | s | [] v | c v]; cbn [Cudify.perform Cudify.perform_local];
    try reflexivity; apply instance_store_same.
Qed.

Lemma instance_perform_other w u a m :
  w <> u ->
  Cudify.instance dim3_default u (Cudify.perform dim3_default w a m)
  = Cudify.instance dim3_default u m.
Proof.
  intros H.
  destruct a as [b | t | s | [] v | c v]; cbn [Cudify.perform];
    try reflexivity; now apply instance_store_other.
Qed.

Lemma global_perform w a m :
  Cudify.global (Cudify.perform dim3_default w a m) = Cudify.global m.
Proof. destruct a as [b | t | s | [] v | c v]; reflexivity. Qed.

Lemma observed_is_local w a m :
  Cudify.observed dim3_default w a m
  = Cudify.observed_local (Cudify.global m) a (Cudify.instance dim3_default w m).
Proof. destruct a as [b | t | s | c v | [] v]; reflexivity. Qed.

Lemma project_cons_same w a es :
  Cudify.project w ((w, a) :: es) = a :: Cudify.project w es.
Proof. unfold Cudify.project; cbn. now rewrite Nat.eqb_refl. Qed.

Lemma project_cons_other w u a es :
  w <> u -> Cudify.project u ((w, a) :: es) = Cudify.project u es.
Proof.
  intros H. unfold Cudify.project; cbn.
  destruct (Nat.eqb_spec w u); [contradiction | reflexivity].
Qed.

(** In an execution every worker reads what it would read running alone
    on its own instance of the thread-local variables, and the variables of
    the process stay as they were. *)
Lemma execute_as_alone (P : Cudify.seen -> Prop) es :
  forall m,
    (forall w, Forall P (Cudify.trace_local (Cudify.global m) (Cudify.project w es)
                           (Cudify.instance dim3_default w m))) ->
    Forall P (fst (Cudify.execute dim3_default es m))
    /\ Cudify.global (snd (Cudify.execute dim3_default es m)) = Cudify.global m.
Proof.
  induction es as [| [w a] es IH]; intros m H; cbn [Cudify.execute].
  - split; [constructor | reflexivity].
  - destruct (Cudify.execute dim3_default es (Cudify.perform dim3_default w a m))
      as [tr m'] eqn:E.
    destruct (IH (Cudify.perform dim3_default w a m)) as [IH1 IH2].
    { intros u. rewrite global_perform.
      destruct (Nat.eq_dec w u) as [<- | Hne].
      - specialize (H w). rewrite project_cons_same in H. cbn in H.
        apply Forall_app in H as [_ H]. now rewrite instance_perform_same.
      - specialize (H u). rewrite project_cons_other in H by assumption.
        now rewrite instance_perform_other. }
    rewrite E in IH1, IH2. cbn [fst snd] in *. split.
    + apply Forall_app. split; [| assumption].
      specialize (H w). rewrite project_cons_same in H. cbn in H.
      apply Forall_app in H as [H _]. now rewrite observed_is_local.
    + now rewrite IH2, global_perform.
Qed.

(** *** One worker alone *)

Lemma trace_local_app g p q l :
  Cudify.trace_local g (p ++ q) l
  = Cudify.trace_local g p l ++ Cudify.trace_local g q (Cudify.run_local p l).
Proof.
  revert l. induction p as [| a p IH]; intros l; cbn; [reflexivity |].
  now rewrite IH, app_assoc.
Qed.

Lemma run_local_app p q l :
  Cudify.run_local (p ++ q) l = Cudify.run_local q (Cudify.run_local p l).
Proof. revert l. induction p as [| a p IH]; intros l; cbn; auto. Qed.

(** A program made of pieces that each read well and keep an invariant
    reads well and keeps the invariant. *)
Lemma flat_map_reads_well {X} (P : Cudify.seen -> Prop) g
    (Inv : Cudify.thread_locals -> Prop) (f : X -> list Cudify.access) xs :
  (forall x l, Inv l ->
               Forall P (Cudify.trace_local g (f x) l)
               /\ Inv (Cudify.run_local (f x) l)) ->
  forall l, Inv l ->
            Forall P (Cudify.trace_local g (flat_map f xs) l)
            /\ Inv (Cudify.run_local (flat_map f xs) l).
Proof.
  intros Hf. induction xs as [| x xs IH]; intros l Hl; cbn [flat_map].
  - split; [constructor | assumption].
  - rewrite trace_local_app, run_local_app.
    destruct (Hf x l Hl) as [H1 H2]. destruct (IH _ H2) as [H3 H4].
    split; [apply Forall_app; split |]; assumption.
Qed.

Section OneWorker.

Variable kernel : Cudify.simulated_thread -> nat -> list (Cudify.scratch_cell * Z).
Variables grid block : Cudify.dim3.
Variable n : N.
Variable g : Cudify.globals.
Hypothesis Hblock : Cudify.g_blockDim g = block.
Hypothesis Hgrid : Cudify.g_gridDim g = grid.
Hypothesis Hn : Cudify.g_n_workers g = n.

Lemma segment_reads_own b t atomics l :
  Cudify.tl_blockIdx l = b ->
  Forall (Cudify.own n grid block)
    (Cudify.trace_local g
       (Cudify.segment {| Cudify.in_block := b; Cudify.at_thread := t |} atomics) l)
  /\ Cudify.tl_blockIdx
       (Cudify.run_local
          (Cudify.segment {| Cudify.in_block := b; Cudify.at_thread := t |} atomics) l)
     = b.
Proof.
  intros Hb. unfold Cudify.segment.
  cbn [Cudify.trace_local Cudify.run_local Cudify.observed_local
       Cudify.perform_local app].
  destruct (flat_map_reads_well (Cudify.own n grid block) g
              (fun l => Cudify.tl_blockIdx l = b)
              (fun cv => [Cudify.AtomicIssue (fst cv) (snd cv);
                          Cudify.AtomicRead (fst cv) (snd cv)]) atomics)
    with (l := {| Cudify.tl_threadIdx := t;
                  Cudify.tl_blockIdx := Cudify.tl_blockIdx l;
                  Cudify.tl_vct_atomic_add := Cudify.tl_vct_atomic_add l;
                  Cudify.tl_vct_atomic_rem := Cudify.tl_vct_atomic_rem l |})
    as [H1 H2].
  - intros [[] v] l0 Hl0; cbn; (split; [repeat constructor | exact Hl0]).
  - exact Hb.
  - split; [| exact H2].
    constructor; [| exact H1]. cbn. auto.
Qed.

Lemma run_block_reads_own barriers b l :
  Forall (Cudify.own n grid block)
    (Cudify.trace_local g (Cudify.run_block kernel block barriers b) l).
Proof.
  unfold Cudify.run_block.
  cbn [Cudify.trace_local Cudify.observed_local Cudify.perform_local app].
  apply (flat_map_reads_well (Cudify.own n grid block) g
           (fun l => Cudify.tl_blockIdx l = b)); [| reflexivity].
  intros r l0 Hl0. unfold Cudify.round.
  apply (flat_map_reads_well (Cudify.own n grid block) g
           (fun l => Cudify.tl_blockIdx l = b)); [| exact Hl0].
  intros t l1 Hl1. now apply segment_reads_own.
Qed.

Lemma worker_program_reads_own barriers blocks l :
  Forall (Cudify.own n grid block)
    (Cudify.trace_local g (Cudify.worker_program kernel block barriers blocks) l).
Proof.
  unfold Cudify.worker_program.
  apply (flat_map_reads_well (Cudify.own n grid block) g (fun _ => True));
    [| exact I].
  intros b l0 _. split; [apply run_block_reads_own | exact I].
Qed.

End OneWorker.

(** C8.  [threadIdx], [blockIdx], [vct_atomic_add] and [vct_atomic_rem]
    are thread-local: what a thread stores it loads back, and no other
    thread's value changes.  [blockDim], [gridDim] and [n_workers] exist
    once for the process: what any thread stores is what every thread
    loads.  Hence, when the worker count is set once at initialization and
    the two dimensions once at the launch, in every interleaving of the
    workers the body of each simulated thread, whenever it is resumed,
    reads its own thread index and block index, the dimensions of the
    launch and the worker count, and reads back from a scratch cell what
    its own atomic left there; after the launch the dimensions and the
    worker count are still the ones that were set. *)
Theorem emulation_variables_storage :
  Cudify.private_to_threads (Cudify.threadIdx dim3_default)
  /\ Cudify.private_to_threads (Cudify.blockIdx dim3_default)
  /\ Cudify.private_to_threads (Cudify.vct_atomic_add dim3_default)
  /\ Cudify.private_to_threads (Cudify.vct_atomic_rem dim3_default)
  /\ Cudify.shared_by_threads Cudify.blockDim
  /\ Cudify.shared_by_threads Cudify.gridDim
  /\ Cudify.shared_by_threads Cudify.n_workers
  /\ (forall kernel grid block barriers n t0 blocks_on es m,
        Cudify.schedule_of kernel block barriers blocks_on es ->
        Forall (Cudify.own n grid block)
          (fst (Cudify.execute dim3_default es
                  (Cudify.launch t0 grid block (Cudify.initialize t0 n m))))
        /\ (forall u,
              Cudify.load Cudify.blockDim u
                (snd (Cudify.execute dim3_default es
                        (Cudify.launch t0 grid block (Cudify.initialize t0 n m))))
              = block
              /\ Cudify.load Cudify.gridDim u
                   (snd (Cudify.execute dim3_default es
                           (Cudify.launch t0 grid block
                              (Cudify.initialize t0 n m))))
                 = grid
              /\ Cudify.load Cudify.n_workers u
                   (snd (Cudify.execute dim3_default es
                           (Cudify.launch t0 grid block
                              (Cudify.initialize t0 n m))))
                 = n)).
Proof.
  repeat apply conj;
    try first [ apply thread_local_private; reflexivity
              | apply process_wide_shared; reflexivity ].
  intros kernel grid block barriers n t0 blocks_on es m Hes.
  destruct (execute_as_alone (Cudify.own n grid block) es
              (Cudify.launch t0 grid block (Cudify.initialize t0 n m)))
    as [H1 H2].
  - intros w. rewrite Hes.
    apply worker_program_reads_own; reflexivity.
  - split; [exact H1 |].
    intros u.
    cbn [Cudify.load Cudify.blockDim Cudify.gridDim Cudify.n_workers
         Cudify.process_wide].
    rewrite H2. repeat apply conj; reflexivity.
Qed.

Lemma filter_all {A} (f : A -> bool) (l : list A) :
  forallb f l = true -> List.filter f l = l.
Proof.
  induction l as [| a l IH]; cbn; [reflexivity |].
  intros H. apply andb_prop in H as [Ha Hl]. rewrite Ha. f_equal. auto.
Qed.

Lemma nodup_constant (a : N) (l : list N) :
  (forall b, In b l -> b = a) -> (length (nodup N.eq_dec l) <= 1)%nat.
Proof.
  induction l as [| b l IH]; intros H; cbn; [lia |].
  destruct (in_dec N.eq_dec b l) as [_ | Hb].
  - apply IH. intros c Hc. apply H. now right.
  - destruct l as [| c l]; [cbn; lia |].
    exfalso. apply Hb. left.
    rewrite (H b), (H c); cbn; auto.
Qed.

(** C10.  [n_workers] starts at 1, so as long as nothing has stored
    another count, a partition of the blocks of any launch across
    [n_workers] workers sends every block to the one worker 0. *)
Theorem single_worker_by_default
    (t : Cudify.thread_id) (grid : Cudify.dim3) (worker_of : nat -> N) :
  Cudify.load Cudify.n_workers t
    (Cudify.initial_memory dim3_default) = 1%N
  /\ (Cudify.partitions
        (Cudify.load Cudify.n_workers t
           (Cudify.initial_memory dim3_default)) grid worker_of = true ->
      (forall b, (b < Cudify.block_count grid)%nat -> worker_of b = 0%N)
      /\ Cudify.blocks_of grid worker_of 0 = seq 0 (Cudify.block_count grid)
      /\ (length (Cudify.busy_workers grid worker_of) <= 1)%nat).
Proof.
  split; [reflexivity |].
  cbn [Cudify.load Cudify.n_workers Cudify.process_wide Cudify.initial_memory
       Cudify.global Cudify.initial_globals Cudify.g_n_workers].
  unfold Cudify.partitions, Cudify.blocks_of, Cudify.busy_workers.
  intros H.
  assert (Hall : forall b, In b (seq 0 (Cudify.block_count grid)) ->
                           worker_of b = 0%N).
  { intros b Hb. rewrite forallb_forall in H. specialize (H b Hb).
    apply N.ltb_lt in H. lia. }
  split; [| split].
  - intros b Hb. apply Hall, in_seq. lia.
  - apply filter_all, forallb_forall. intros b Hb.
    apply N.eqb_eq. auto.
  - apply (nodup_constant 0%N). intros w Hw.
    apply in_map_iff in Hw as (b & <- & Hb). auto.
Qed.

End StorageFacts.

(** Two workers taking turns, access by access, on a launch of two blocks
    of two threads with one barrier: the twelve reads of the execution all
    give the reader its own values. *)
Lemma emulation_variables_storage_witness :
  length (fst (Cudify.execute TestLaunch.origin TestLaunch.execution
                 TestLaunch.launched)) = 12%nat
  /\ Forall (Cudify.own 2 TestLaunch.two TestLaunch.two)
       (fst (Cudify.execute TestLaunch.origin TestLaunch.execution
               TestLaunch.launched)).
Proof.
  split; [reflexivity |].
  destruct (emulation_variables_storage TestLaunch.origin)
    as (_ & _ & _ & _ & _ & _ & _ & H).
  apply (H TestLaunch.kernel TestLaunch.two TestLaunch.two 1%nat 2%N 0%nat
           TestLaunch.blocks_on TestLaunch.execution
           (Cudify.initial_memory TestLaunch.origin)).
  intros w. destruct w as [| [| w]]; reflexivity.
Defined.

(** A launch of a 2 x 2 x 1 grid before the worker count is set: the four
    blocks all go to worker 0. *)
Lemma single_worker_by_default_witness :
  Cudify.blocks_of {| Cudify.x := 2; Cudify.y := 2; Cudify.z := 1 |}
    (fun _ => 0%N) 0
  = [0; 1; 2; 3]%nat.
Proof.
  apply (proj2 (single_worker_by_default
                  {| Cudify.x := 0; Cudify.y := 0; Cudify.z := 0 |} 0%nat
                  {| Cudify.x := 2; Cudify.y := 2; Cudify.z := 1 |}
                  (fun _ => 0%N)) eq_refl).
Defined.

(** * Further properties of the real-accelerator variant *)
Section RealOperations.

Context {W cudaDeviceProp : Type}.
Variable rt : cuda_runtime W cudaDeviceProp.
Variable NVCC : bool.
Variable device_prop_string : indet cudaDeviceProp -> string.
Implicit Types (m : machine W) (this : @CudaGpu.ofp_context_t cudaDeviceProp).

(** Names the answer of every runtime call the goal is stuck on, keeping
    the equation that says which call gave it. *)
Ltac respond :=
  repeat first
    [ progress run
    | match goal with
      | |- context [fst ?t] =>
          lazymatch type of t with
          | (_ * W)%type => let E := fresh "E" in destruct t as [? ?] eqn:E
          end
      | |- context [snd ?t] =>
          lazymatch type of t with
          | (_ * W)%type => let E := fresh "E" in destruct t as [? ?] eqn:E
          end
      end;
      repeat match goal with
        | x : (_ * _)%type |- _ => destruct x as [? ?]
        end;
      cbn [fst snd] ].

(** Decides the tests of the code one after the other. *)
Ltac branch :=
  repeat (match goal with
          | |- context [if ?b then _ else _] => destruct b eqn:?
          | |- context [match ?o with Some _ => _ | None => _ end] => destruct o
          end; respond).

(** X1.  [synchronize] waits for the stream of the context when that stream
    is not the null stream and for the whole device otherwise; it returns
    when the wait succeeds and throws the status of the wait when it
    fails. *)
Theorem synchronize_contract this m :
  (forall status w,
     CudaGpu._stream this <> 0%N ->
     cudaStreamSynchronize rt (CudaGpu._stream this) (world m) = (status, w) ->
     CudaGpu.synchronize rt this m
     = (if status =? cudaSuccess then Returns tt
        else Throws {| result := status |},
        after m w [StreamSynchronize (CudaGpu._stream this)] []))
  /\ (forall status w,
        CudaGpu._stream this = 0%N ->
        cudaDeviceSynchronize rt (world m) = (status, w) ->
        CudaGpu.synchronize rt this m
        = (if status =? cudaSuccess then Returns tt
           else Throws {| result := status |},
           after m w [DeviceSynchronize] [])).
Proof.
  unfold CudaGpu.synchronize. split; intros status w Hs Hcall.
  - destruct (N.eqb_spec (CudaGpu._stream this) 0) as [E | _]; [contradiction |].
    run. rewrite Hcall. cbn [fst snd].
    rewrite (Z.eqb_sym cudaSuccess status).
    destruct (status =? cudaSuccess); reflexivity.
  - rewrite Hs. change (negb (0 =? 0)%N) with false. run.
    rewrite Hcall. cbn [fst snd].
    rewrite (Z.eqb_sym cudaSuccess status).
    destruct (status =? cudaSuccess); reflexivity.
Qed.

Lemma init_throws_failure dev_num opt this m e m' :
  CudaGpu.init rt NVCC dev_num opt this m = (Throws e, m') ->
  result e <> cudaSuccess.
Proof.
  unfold CudaGpu.init.
  destruct NVCC; respond; branch; intros H; inversion H; subst; cbn;
    match goal with
    | E : negb (cudaSuccess =? ?r) = true |- ?r <> cudaSuccess =>
        apply negb_true_iff, Z.eqb_neq in E; congruence
    end.
Qed.

(** X2.  Whatever [alloc], [free], [synchronize] or the constructor throws
    carries a status other than [cudaSuccess]. *)
Theorem thrown_status_is_failure
    this size p space opt dev_num stream_ m e m' :
  CudaGpu.alloc rt this size space m = (Throws e, m')
  \/ CudaGpu.free rt this p space m = (Throws e, m')
  \/ CudaGpu.synchronize rt this m = (Throws e, m')
  \/ CudaGpu.ofp_context_t_ctor rt NVCC device_prop_string opt dev_num stream_ m
     = (Throws e, m') ->
  result e <> cudaSuccess.
Proof.
  intros [H | [H | [H | H]]]; revert H.
  - unfold CudaGpu.alloc. branch; intros H; inversion H; subst; cbn;
      match goal with
      | E : negb (cudaSuccess =? ?r) = true |- ?r <> cudaSuccess =>
          apply negb_true_iff, Z.eqb_neq in E; congruence
      end.
  - unfold CudaGpu.free. branch; intros H; inversion H; subst; cbn;
      match goal with
      | E : negb (cudaSuccess =? ?r) = true |- ?r <> cudaSuccess =>
          apply negb_true_iff, Z.eqb_neq in E; congruence
      end.
  - unfold CudaGpu.synchronize. branch; intros H; inversion H; subst; cbn;
      match goal with
      | E : negb (cudaSuccess =? ?r) = true |- ?r <> cudaSuccess =>
          apply negb_true_iff, Z.eqb_neq in E; congruence
      end.
  - rewrite ctor_after_init.
    destruct (CudaGpu.init rt NVCC dev_num opt (CudaGpu.uninitialized stream_) m)
      as [[c | e0 |] m1] eqn:E; intros H; inversion H; subst.
    eapply init_throws_failure; eassumption.
Qed.

(** X3.  [timer_begin], [timer_end], [getDevice], [getNDevice] and the
    destructor drop every status the runtime hands them: whatever the
    runtime answers, none of them throws, and all but [timer_end] return. *)
Theorem statuses_dropped this m :
  returns_normally (CudaGpu.timer_begin rt this m) = true
  /\ returns_normally (CudaGpu.getDevice rt this m) = true
  /\ returns_normally (CudaGpu.getNDevice rt this m) = true
  /\ returns_normally (CudaGpu.ofp_context_t_dtor rt this m) = true
  /\ (forall e, fst (CudaGpu.timer_end rt this m) <> Throws e).
Proof.
  unfold CudaGpu.timer_begin, CudaGpu.getDevice, CudaGpu.getNDevice,
    CudaGpu.ofp_context_t_dtor, CudaGpu.timer_end, returns_normally.
  repeat apply conj; respond; try reflexivity.
  intros e. branch; discriminate.
Qed.

(** X4.  On the real-accelerator variant only the constructor writes to
    standard output: [init], the destructor and every other member
    function leave it as it was, whatever the runtime answers and however
    they end. *)
Theorem only_construction_prints this size p space dev_num opt m :
  stdout (snd (CudaGpu.init rt NVCC dev_num opt this m)) = stdout m
  /\ stdout (snd (CudaGpu.ofp_context_t_dtor rt this m)) = stdout m
  /\ stdout (snd (CudaGpu.alloc rt this size space m)) = stdout m
  /\ stdout (snd (CudaGpu.free rt this p space m)) = stdout m
  /\ stdout (snd (CudaGpu.synchronize rt this m)) = stdout m
  /\ stdout (snd (CudaGpu.timer_begin rt this m)) = stdout m
  /\ stdout (snd (CudaGpu.timer_end rt this m)) = stdout m
  /\ stdout (snd (CudaGpu.getDevice rt this m)) = stdout m
  /\ stdout (snd (CudaGpu.getNDevice rt this m)) = stdout m
  /\ stdout (snd (CudaGpu.props this m)) = stdout m
  /\ stdout (snd (CudaGpu.ptx_version this m)) = stdout m
  /\ stdout (snd (CudaGpu.stream this m)) = stdout m
  /\ stdout (snd (CudaGpu.event this m)) = stdout m.
Proof.
  unfold CudaGpu.init, CudaGpu.ofp_context_t_dtor, CudaGpu.alloc, CudaGpu.free,
    CudaGpu.synchronize, CudaGpu.timer_begin, CudaGpu.timer_end,
    CudaGpu.getDevice, CudaGpu.getNDevice, CudaGpu.props, CudaGpu.ptx_version,
    CudaGpu.stream, CudaGpu.event.
  repeat apply conj; try reflexivity;
    try (destruct NVCC); respond; branch;
    cbn; rewrite ?app_nil_r; reflexivity.
Qed.

Lemma init_frame dev_num opt this m this' m' :
  CudaGpu.init rt NVCC dev_num opt this m = (Returns this', m') ->
  CudaGpu._stream this' = CudaGpu._stream this
  /\ CudaGpu.tmem this' = CudaGpu.tmem this
  /\ CudaGpu.tmem2 this' = CudaGpu.tmem2 this
  /\ CudaGpu.tmem3 this' = CudaGpu.tmem3 this
  /\ CudaGpu._ptx_version this'
     = Some (CudaGpu.ptx_version_found rt NVCC (world m)).
Proof.
  unfold CudaGpu.init, CudaGpu.ptx_version_found.
  destruct NVCC; respond; branch; intros H; inversion H; subst; cbn;
    repeat apply conj; reflexivity.
Qed.

(** X5.  Every context the constructor returns holds the stream it was
    given, three empty scratch vectors and an assigned PTX version: the
    version the runtime reported when compiled by NVCC, 60 otherwise.  This
    holds whatever the option, the device number and the number of
    devices. *)
Theorem constructed_context opt dev_num stream_ m this m' :
  CudaGpu.ofp_context_t_ctor rt NVCC device_prop_string opt dev_num stream_ m
  = (Returns this, m') ->
  CudaGpu._stream this = stream_
  /\ CudaGpu.tmem this = [] /\ CudaGpu.tmem2 this = [] /\ CudaGpu.tmem3 this = []
  /\ CudaGpu._ptx_version this
     = Some (CudaGpu.ptx_version_found rt NVCC (world m))
  /\ (NVCC = false -> CudaGpu._ptx_version this = Some 60).
Proof.
  rewrite ctor_after_init.
  destruct (CudaGpu.init rt NVCC dev_num opt (CudaGpu.uninitialized stream_) m)
    as [[c | e0 |] m1] eqn:E; intros H; inversion H; subst.
  apply init_frame in E as (Hs & H1 & H2 & H3 & Hv).
  repeat apply conj; try assumption.
  intros HN. rewrite Hv. unfold CudaGpu.ptx_version_found. now rewrite HN.
Qed.

Lemma init_assigns dev_num opt this m n this' m' :
  CudaGpu.writes_events rt ->
  CudaGpu.writes_props rt ->
  CudaGpu.devices_reported rt NVCC (world m) = Some n ->
  n <> 0 ->
  CudaGpu.init rt NVCC dev_num opt this m = (Returns this', m') ->
  CudaGpu.assigned (CudaGpu._props this') = true
  /\ CudaGpu.assigned (fst (CudaGpu._timer this')) = true
  /\ CudaGpu.assigned (snd (CudaGpu._timer this')) = true
  /\ CudaGpu.assigned (CudaGpu._event this') = true.
Proof.
  intros Hev Hpr Hn Hne. revert Hn.
  unfold CudaGpu.init, CudaGpu.devices_reported, CudaGpu.world_at_count.
  destruct NVCC; intros Hn; respond; branch; intros H;
    try discriminate;
    cbn [fst snd] in Hn;
    repeat match goal with
      | E : ?t = (_, _) |- _ =>
          match type of Hn with
          | context [t] => rewrite E in Hn; cbn [fst snd] in Hn
          end
      end;
    try discriminate; inversion Hn; subst; inversion H; subst;
    try match goal with
      | E : (?n =? 0) = true |- _ => apply Z.eqb_eq in E; contradiction
      end;
    repeat match goal with
      | E : cudaEventCreate rt ?w = _ |- _ =>
          let K := fresh "K" in
          pose proof (Hev w) as K; rewrite E in K; cbn in K; clear E
      | E : cudaGetDeviceProperties rt ?o ?w = _ |- _ =>
          let K := fresh "K" in
          pose proof (Hpr o w) as K; rewrite E in K; cbn in K; clear E
      end;
    repeat match goal with
      | K : ?o <> None |- _ => destruct o; [clear K | congruence]
      end;
    repeat apply conj; reflexivity.
Qed.

(** X6.  When the runtime reports a number of devices other than 0 and
    writes the out-parameter of every event creation and property query, a
    context the constructor returns has its properties, both timer events
    and its event assigned, and its destructor issues three destroy calls,
    each on an assigned handle. *)
Theorem constructed_with_devices opt dev_num stream_ m n this m' :
  CudaGpu.writes_events rt ->
  CudaGpu.writes_props rt ->
  CudaGpu.devices_reported rt NVCC (world m) = Some n ->
  n <> 0 ->
  CudaGpu.ofp_context_t_ctor rt NVCC device_prop_string opt dev_num stream_ m
  = (Returns this, m') ->
  CudaGpu.assigned (CudaGpu._props this) = true
  /\ CudaGpu.assigned (fst (CudaGpu._timer this)) = true
  /\ CudaGpu.assigned (snd (CudaGpu._timer this)) = true
  /\ CudaGpu.assigned (CudaGpu._event this) = true
  /\ (forall m2,
        length (new_calls m2 (snd (CudaGpu.ofp_context_t_dtor rt this m2))) = 3%nat
        /\ forallb CudaGpu.destroys_assigned
             (new_calls m2 (snd (CudaGpu.ofp_context_t_dtor rt this m2))) = true).
Proof.
  intros Hev Hpr Hn Hne. rewrite ctor_after_init.
  destruct (CudaGpu.init rt NVCC dev_num opt (CudaGpu.uninitialized stream_) m)
    as [[c | e0 |] m1] eqn:E; intros H; inversion H; subst.
  destruct (init_assigns _ _ _ _ _ _ _ Hev Hpr Hn Hne E) as (Hp & H0 & H1 & He).
  repeat apply conj; try assumption.
  intros m2. rewrite dtor_calls. cbn [snd]. rewrite new_calls_after.
  split; [reflexivity |]. cbn. now rewrite H0, H1, He.
Qed.

(** X7.  Allocating and then freeing in the same space: with size 0 the
    pair does nothing at all; with a size above 0, when the allocation
    succeeds with a non-null pointer, that pointer is released by the
    native call that matches the one that allocated it ([cudaFree] after
    [cudaMalloc], [cudaFreeHost] after [cudaMallocHost]), and the pair
    throws exactly when the release fails. *)
Theorem alloc_then_free this size space m :
  (size = 0%N ->
   bind (CudaGpu.alloc rt this size space)
     (fun p => CudaGpu.free rt this p space) m = (Returns tt, m))
  /\ (forall p w status w',
        size <> 0%N ->
        CudaGpu.native_alloc rt space size (world m) = (cudaSuccess, Some p, w) ->
        p <> nullptr ->
        CudaGpu.native_free rt space p w = (status, w') ->
        bind (CudaGpu.alloc rt this size space)
          (fun p => CudaGpu.free rt this p space) m
        = (if status =? cudaSuccess then Returns tt
           else Throws {| result := status |},
           after m w' [CudaGpu.alloc_call space size; CudaGpu.free_call space p] [])).
Proof.
  split.
  - intros ->. reflexivity.
  - intros p w status w' Hsize Ha Hp Hf.
    unfold CudaGpu.alloc, CudaGpu.free.
    destruct (N.eqb_spec size 0) as [E | _]; [contradiction |].
    destruct space;
      cbn [memory_space_eqb CudaGpu.native_alloc CudaGpu.alloc_call
           CudaGpu.native_free CudaGpu.free_call negb] in *;
      run; rewrite Ha; run;
      change (cudaSuccess =? cudaSuccess) with true; run;
      (destruct (N.eqb_spec p nullptr) as [E | _]; [contradiction |]);
      run; rewrite Hf; cbn [fst snd];
      rewrite (Z.eqb_sym cudaSuccess status);
      destruct (status =? cudaSuccess); reflexivity.
Qed.

(** X13.  With devices present, the properties a constructed context holds
    are what the runtime wrote for the device it reports as current after
    the optional selection: the ordinal comes from [cudaGetDevice], not
    from [dev_num], and the status of [cudaSetDevice] is not looked at. *)
Theorem properties_of_current_device opt dev_num stream_ m n :
  CudaGpu.ptx_query_fails rt NVCC (world m) = false ->
  CudaGpu.devices_reported rt NVCC (world m) = Some n ->
  0 < n ->
  let w1 := CudaGpu.world_after_count rt NVCC (world m) in
  let w2 := if gpu_context_opt_eqb opt dummy then w1
            else snd (cudaSetDevice rt (Z.rem dev_num n) w1) in
  let ord := snd (fst (cudaGetDevice rt w2)) in
  let w3 := snd (cudaGetDevice rt w2) in
  exists this m',
    CudaGpu.ofp_context_t_ctor rt NVCC device_prop_string opt dev_num stream_ m
    = (Returns this, m')
    /\ In (GetDeviceProperties ord) (new_calls m m')
    /\ CudaGpu._props this = snd (fst (cudaGetDeviceProperties rt ord w3)).
Proof.
  intros Hq Hn Hpos. cbv zeta. rewrite ctor_after_init.
  assert (En : (n =? 0) = false) by (apply Z.eqb_neq; lia).
  assert (En1 : (n =? -1) = false) by (apply Z.eqb_neq; lia).
  unfold CudaGpu.init, CudaGpu.devices_reported, CudaGpu.world_after_count,
    CudaGpu.ptx_query_fails, CudaGpu.ptx_query_status, CudaGpu.world_at_count
    in *.
  destruct NVCC.
  - destruct (cudaFuncGetAttributes rt (world m)) as [[r attr] wa] eqn:Ea.
    cbn [fst snd] in *. apply negb_false_iff in Hq.
    destruct (cudaGetDeviceCount rt wa) as [[ec k] wc] eqn:Ec.
    cbn [fst snd] in *. subst k.
    run. rewrite Ea. run. rewrite Hq. run. rewrite Ec. run. rewrite En.
    destruct (gpu_context_opt_eqb opt dummy); cbn [negb]; rewrite ?En1;
      cbn [andb]; respond;
      do 2 eexists; (split; [reflexivity |]);
      rewrite ?after_after, new_calls_after; split;
      try (cbn; tauto);
      cbn; unfold written;
      repeat match goal with
        | |- context [match ?o with Some _ => _ | None => _ end] => destruct o
        end;
      reflexivity.
  - destruct (cudaGetDeviceCount rt (world m)) as [[ec k] wc] eqn:Ec.
    cbn [fst snd] in *. subst k.
    run. rewrite Ec. run. rewrite En.
    destruct (gpu_context_opt_eqb opt dummy); cbn [negb]; rewrite ?En1;
      cbn [andb]; respond;
      do 2 eexists; (split; [reflexivity |]);
      rewrite ?after_after, new_calls_after; split;
      try (cbn; tauto);
      cbn; unfold written;
      repeat match goal with
        | |- context [match ?o with Some _ => _ | None => _ end] => destruct o
        end;
      reflexivity.
Qed.

End RealOperations.

(** * Further properties of the CPU variant *)
Section StubSequences.

Context {W : Type}.
Variable FILE : string.
Implicit Types (m : machine W) (this : CudaOnCpu.ofp_context_t).

(** X8.  The diagnostic tells the source line: two different lines never
    print the same text, so the eight member functions that print one are
    told apart by their output. *)
Theorem diagnostic_identifies_line (LINE LINE' : nat) :
  LINE <> LINE' ->
  CudaOnCpu.diagnostic FILE LINE <> CudaOnCpu.diagnostic FILE LINE'.
Proof.
  intros Hne Heq. apply Hne. unfold CudaOnCpu.diagnostic in Heq.
  injection Heq as Heq.
  apply (f_equal NilEmpty.uint_of_string) in Heq.
  rewrite !NilEmpty.usu in Heq. injection Heq as Heq.
  now apply DecimalNat.Unsigned.to_uint_inj.
Qed.

Lemma perform_after this (c : CudaOnCpu.member_call) m :
  CudaOnCpu.perform FILE this c m
  = (Returns tt, after m (world m) [] (CudaOnCpu.diagnostics FILE [c])).
Proof.
  unfold CudaOnCpu.diagnostics; cbn [map concat]; rewrite app_nil_r.
  destruct c; cbn [CudaOnCpu.perform CudaOnCpu.source_line];
    unfold CudaOnCpu.props, CudaOnCpu.ptx_version, CudaOnCpu.stream,
      CudaOnCpu.alloc, CudaOnCpu.free, CudaOnCpu.synchronize, CudaOnCpu.event,
      CudaOnCpu.timer_begin, CudaOnCpu.timer_end, CudaOnCpu.getDevice;
    run; rewrite ?not_implemented_after; run;
    rewrite ?after_nothing; reflexivity.
Qed.

(** X9.  Any sequence of member calls on the CPU variant runs to its end:
    it never throws, never reaches the runtime, and prints the diagnostics
    of the calls that have one, in call order. *)
Theorem stub_calls_in_sequence this (cs : list CudaOnCpu.member_call) m :
  CudaOnCpu.perform_all FILE this cs m
  = (Returns tt, after m (world m) [] (CudaOnCpu.diagnostics FILE cs)).
Proof.
  revert m. induction cs as [| c cs IH]; intros m.
  - cbn. unfold ret. now rewrite after_nothing.
  - cbn [CudaOnCpu.perform_all]. unfold bind.
    rewrite perform_after, IH, after_after, world_after.
    unfold CudaOnCpu.diagnostics. cbn [map concat app].
    now rewrite app_nil_r.
Qed.

End StubSequences.

(** * Further properties of the emulation variables *)
Section StoreSequences.

Variable dim3_default : Cudify.dim3.

Lemma private_last_store {A} (v : Cudify.variable A) :
  Cudify.private_to_threads v ->
  forall (ws : list (Cudify.thread_id * A)) (m : Cudify.memory) (u : Cudify.thread_id),
    Cudify.load v u (Cudify.store_all v ws m)
    = default (Cudify.load v u m) (Cudify.last_stored_by u ws).
Proof.
  intros Hv ws. induction ws as [| [t a] ws IH]; intros m u; cbn.
  - reflexivity.
  - rewrite IH. destruct (Cudify.last_stored_by u ws); cbn; [reflexivity |].
    destruct (Hv t u a m) as [Hsame Hother].
    destruct (Nat.eqb_spec t u) as [-> | Hne]; cbn.
    + now destruct (Hv u u a m).
    + auto.
Qed.

Lemma shared_last_store {A} (v : Cudify.variable A) :
  Cudify.shared_by_threads v ->
  forall (ws : list (Cudify.thread_id * A)) (m : Cudify.memory) (u : Cudify.thread_id),
    Cudify.load v u (Cudify.store_all v ws m)
    = default (Cudify.load v u m) (Cudify.last_stored ws).
Proof.
  intros Hv ws. induction ws as [| [t a] ws IH]; intros m u; cbn.
  - reflexivity.
  - rewrite IH. destruct (Cudify.last_stored ws); cbn; [reflexivity |].
    apply Hv.
Qed.

(** X10.  After any sequence of stores by any threads, a thread loads from
    [threadIdx], [blockIdx], [vct_atomic_add] or [vct_atomic_rem] the
    value it stored last itself (what it loaded before, if it stored
    none), whatever the other threads stored in between. *)
Theorem thread_local_last_store_wins (u : Cudify.thread_id) (m : Cudify.memory)
    (ds : list (Cudify.thread_id * Cudify.dim3))
    (zs : list (Cudify.thread_id * Z)) :
  Cudify.load (Cudify.threadIdx dim3_default) u
    (Cudify.store_all (Cudify.threadIdx dim3_default) ds m)
  = default (Cudify.load (Cudify.threadIdx dim3_default) u m)
      (Cudify.last_stored_by u ds)
  /\ Cudify.load (Cudify.blockIdx dim3_default) u
       (Cudify.store_all (Cudify.blockIdx dim3_default) ds m)
     = default (Cudify.load (Cudify.blockIdx dim3_default) u m)
         (Cudify.last_stored_by u ds)
  /\ Cudify.load (Cudify.vct_atomic_add dim3_default) u
       (Cudify.store_all (Cudify.vct_atomic_add dim3_default) zs m)
     = default (Cudify.load (Cudify.vct_atomic_add dim3_default) u m)
         (Cudify.last_stored_by u zs)
  /\ Cudify.load (Cudify.vct_atomic_rem dim3_default) u
       (Cudify.store_all (Cudify.vct_atomic_rem dim3_default) zs m)
     = default (Cudify.load (Cudify.vct_atomic_rem dim3_default) u m)
         (Cudify.last_stored_by u zs).
Proof.
  repeat apply conj; apply private_last_store, thread_local_private;
    reflexivity.
Qed.

(** X11.  After any sequence of stores by any threads, every thread loads
    from [blockDim], [gridDim], [init_wrappers_call] or [n_workers] the
    value stored last, whichever thread stored it. *)
Theorem shared_last_store_wins (u : Cudify.thread_id) (m : Cudify.memory)
    (ds : list (Cudify.thread_id * Cudify.dim3))
    (bs : list (Cudify.thread_id * bool))
    (ns : list (Cudify.thread_id * N)) :
  Cudify.load Cudify.blockDim u (Cudify.store_all Cudify.blockDim ds m)
  = default (Cudify.load Cudify.blockDim u m) (Cudify.last_stored ds)
  /\ Cudify.load Cudify.gridDim u (Cudify.store_all Cudify.gridDim ds m)
     = default (Cudify.load Cudify.gridDim u m) (Cudify.last_stored ds)
  /\ Cudify.load Cudify.init_wrappers_call u
       (Cudify.store_all Cudify.init_wrappers_call bs m)
     = default (Cudify.load Cudify.init_wrappers_call u m) (Cudify.last_stored bs)
  /\ Cudify.load Cudify.n_workers u (Cudify.store_all Cudify.n_workers ns m)
     = default (Cudify.load Cudify.n_workers u m) (Cudify.last_stored ns).
Proof.
  repeat apply conj; apply shared_last_store, process_wide_shared;
    reflexivity.
Qed.

End StoreSequences.

(** * The further properties at work *)

(** A context on stream 7 waits for that stream, one on the null stream for
    the device. *)
Lemma synchronize_contract_witness :
  CudaGpu.synchronize TestRuntime.runtime TestRuntime.stream_context
    TestRuntime.one_device
  = (Returns tt,
     after TestRuntime.one_device (world TestRuntime.one_device)
       [StreamSynchronize 7%N] [])
  /\ CudaGpu.synchronize TestRuntime.runtime TestRuntime.gpu_context
       TestRuntime.one_device
     = (Returns tt,
        after TestRuntime.one_device (world TestRuntime.one_device)
          [DeviceSynchronize] []).
Proof.
  split.
  - apply (proj1 (synchronize_contract TestRuntime.runtime
                    TestRuntime.stream_context TestRuntime.one_device)
             0 (world TestRuntime.one_device)); [discriminate | reflexivity].
  - apply (proj2 (synchronize_contract TestRuntime.runtime
                    TestRuntime.gpu_context TestRuntime.one_device)
             0 (world TestRuntime.one_device)); reflexivity.
Defined.

(** The exception of an allocation beyond the capacity carries status 2. *)
Lemma thrown_status_is_failure_witness :
  result {| result := 2 |} <> cudaSuccess.
Proof.
  apply (thrown_status_is_failure TestRuntime.runtime true
           TestRuntime.show_props TestRuntime.gpu_context 10000 0%N
           memory_space_host no_print_props 0 0%N TestRuntime.one_device
           {| result := 2 |}
           (after TestRuntime.one_device (world TestRuntime.one_device)
              [MallocHost 10000] [])).
  left. reflexivity.
Defined.

(** Constructed on stream 9 with the [dummy] option, the context holds
    stream 9 and the PTX version 70 of the runtime. *)
Lemma constructed_context_witness :
  exists this m',
    CudaGpu.ofp_context_t_ctor TestRuntime.runtime true TestRuntime.show_props
      dummy 3 9%N TestRuntime.two_devices = (Returns this, m')
    /\ CudaGpu._stream this = 9%N
    /\ CudaGpu._ptx_version this = Some 70.
Proof.
  do 2 eexists. split; [reflexivity |].
  destruct (constructed_context TestRuntime.runtime true TestRuntime.show_props
              dummy 3 9%N TestRuntime.two_devices _ _ eq_refl)
    as (H1 & _ & _ & _ & H5 & _).
  split; [exact H1 | exact H5].
Defined.

(** With two devices, everything the constructor leaves is assigned. *)
Lemma constructed_with_devices_witness :
  exists this m',
    CudaGpu.ofp_context_t_ctor TestRuntime.lenient true TestRuntime.show_props
      no_print_props 5 0%N TestRuntime.two_devices = (Returns this, m')
    /\ CudaGpu.assigned (CudaGpu._props this) = true
    /\ CudaGpu.assigned (CudaGpu._event this) = true.
Proof.
  do 2 eexists. split; [reflexivity |].
  destruct (constructed_with_devices TestRuntime.lenient true
              TestRuntime.show_props no_print_props 5 0%N
              TestRuntime.two_devices 2 _ _
              ltac:(intros w; discriminate)
              ltac:(intros ord w; discriminate)
              eq_refl ltac:(lia) eq_refl)
    as (H1 & _ & _ & H4 & _).
  split; [exact H1 | exact H4].
Defined.

(** Sixteen device bytes are allocated by [cudaMalloc] and released by
    [cudaFree]. *)
Lemma alloc_then_free_witness :
  bind (CudaGpu.alloc TestRuntime.runtime TestRuntime.gpu_context 16
          memory_space_device)
    (fun p => CudaGpu.free TestRuntime.runtime TestRuntime.gpu_context p
                memory_space_device)
    TestRuntime.one_device
  = (Returns tt,
     after TestRuntime.one_device
       (TestRuntime.upd_address 272 (world TestRuntime.one_device))
       [Malloc 16; Free 256%N] []).
Proof.
  apply (proj2 (alloc_then_free TestRuntime.runtime TestRuntime.gpu_context 16
                  memory_space_device TestRuntime.one_device)
           256%N (TestRuntime.upd_address 272 (world TestRuntime.one_device))
           0 (TestRuntime.upd_address 272 (world TestRuntime.one_device)));
    [discriminate | reflexivity | discriminate | reflexivity].
Defined.

(** [alloc] and [free] of the CPU variant print different diagnostics. *)
Lemma diagnostic_identifies_line_witness :
  CudaOnCpu.diagnostic TestRuntime.source_file 70
  <> CudaOnCpu.diagnostic TestRuntime.source_file 76.
Proof.
  apply (diagnostic_identifies_line TestRuntime.source_file 70 76).
  discriminate.
Defined.

(** With two devices and device number 5, the properties held are those of
    device 1. *)
Lemma properties_of_current_device_witness :
  exists this m',
    CudaGpu.ofp_context_t_ctor TestRuntime.runtime true TestRuntime.show_props
      no_print_props 5 0%N TestRuntime.two_devices = (Returns this, m')
    /\ In (GetDeviceProperties (Some 1)) (new_calls TestRuntime.two_devices m')
    /\ CudaGpu._props this = Some 1001.
Proof.
  apply (properties_of_current_device TestRuntime.runtime true
           TestRuntime.show_props no_print_props 5 0%N
           TestRuntime.two_devices 2 eq_refl eq_refl ltac:(lia)).
Defined.
